(** * Piper TTS LiveKit plugin: the latency tracker and the synthesis bridge

    A shallow embedding of
    - [LatencyTracker] of [src/agent_latency_test.py], and
    - [PiperStream._run], [_generate] and [_read] of
      [src/custom_tts/PiperTTSPluginLocal.py],
    followed by the properties of the two components.

    Python floats are IEEE binary64 numbers: they are the kernel's primitive
    floats here, with the same multiplication and addition.  A Python [dict]
    is a [gmap]; the filesystem is a [gmap] from paths to files. *)

From Stdlib Require Import ZArith List Strings.Byte Floats.PrimFloat QArith Lia.
From stdpp Require Import gmap strings list fin_maps.

#[local] Open Scope string_scope.
#[local] Open Scope Z_scope.
#[local] Set Warnings "-inexact-float".

(* ===================================================================== *)
(** * The latency tracker ([src/agent_latency_test.py])                   *)
(* ===================================================================== *)

Module Tracker.

(** The values a [speech_id] attribute holds when it is not [None]: a string
    in the framework, an integer for a duck-typed caller.  They are the keys of
    [self.parts]. *)
Inductive key :=
  | KStr (s : string)
  | KInt (n : Z).

#[global] Instance key_eq_dec : EqDecision key.
Proof. solve_decision. Defined.

#[global] Instance key_countable : Countable key.
Proof.
  refine (inj_countable'
            (fun k => match k with KStr s => inl s | KInt n => inr n end)
            (fun x => match x with inl s => KStr s | inr n => KInt n end) _).
  by intros [].
Defined.

(** Python's truth value of a key object: [""] and [0] are falsy. *)
Definition truthy (k : key) : bool :=
  match k with
  | KStr s => negb (String.eqb s "")
  | KInt n => negb (Z.eqb n 0)
  end.

(** A metric object, by the four attributes the tracker probes.  A timing
    field is [None] when [hasattr] is false and [Some v] when the attribute is
    there ([v] is what [float(...)] makes of it).  [speech_id] is what
    [getattr(metric, "speech_id", None)] evaluates to: [None] when the
    attribute is missing or holds Python's [None]. *)
Record metric := Metric {
  end_of_utterance_delay : option float;
  ttft : option float;
  ttfb : option float;
  speech_id : option key
}.

(** An event: either it has a [metrics] attribute (the framework's
    [MetricsCollectedEvent]) or it is looked at as the metric itself. *)
Record event := Event {
  metrics : option metric;
  own_attrs : metric
}.

(** [getattr(event, "metrics", event)] *)
Definition getattr_metrics (ev : event) : metric :=
  match metrics ev with
  | Some m => m
  | None => own_attrs ev
  end.

(** One [logger.info] call, by format and arguments. *)
Inductive log_record :=
  | LogStt (room : string) (ms : float)
  | LogLlm (room : string) (ms : float)
  | LogTts (room : string) (ms : float)
  | LogTotal (room : string) (k : key) (stt llm tts total : float).

Record LatencyTracker := {
  room_name : string;
  parts : gmap key (gmap string float)
}.

(** [LatencyTracker(room_name)] *)
Definition init (room : string) : LatencyTracker :=
  {| room_name := room; parts := ∅ |}.

Definition _stt_latency_ms (m : metric) : option float :=
  match end_of_utterance_delay m with
  | Some v => Some (v * 1000)%float
  | None => None
  end.

Definition _llm_latency_ms (m : metric) : option float :=
  match ttft m with
  | Some v => Some (v * 1000)%float
  | None => None
  end.

Definition _tts_latency_ms (m : metric) : option float :=
  match ttfb m with
  | Some v => Some (v * 1000)%float
  | None => None
  end.

(** The [if]/[elif]/[elif] chain of lines 55-60: at most one line is logged,
    the first of stt, llm, tts that is present. *)
Definition log_latency (room : string) (stt_ms llm_ms tts_ms : option float)
  : list log_record :=
  match stt_ms with
  | Some v => [LogStt room v]
  | None =>
    match llm_ms with
    | Some v => [LogLlm room v]
    | None =>
      match tts_ms with
      | Some v => [LogTts room v]
      | None => []
      end
    end
  end.

(** [if x_ms is not None: part_map[name] = x_ms] *)
Definition store (name : string) (x_ms : option float)
    (part_map : gmap string float) : gmap string float :=
  match x_ms with
  | Some v => <[name := v]> part_map
  | None => part_map
  end.

(** The three independent [if]s of lines 67-72. *)
Definition store_all (stt_ms llm_ms tts_ms : option float)
    (part_map : gmap string float) : gmap string float :=
  store "tts" tts_ms (store "llm" llm_ms (store "stt" stt_ms part_map)).

(** [all(k in part_map for k in ("stt", "llm", "tts"))] *)
Definition all_present (part_map : gmap string float) : bool :=
  forallb (fun k => bool_decide (is_Some (part_map !! k))) ["stt"; "llm"; "tts"].

(** [part_map[name]]; the default is never reached under [all_present]. *)
Definition item (part_map : gmap string float) (name : string) : float :=
  default 0%float (part_map !! name).

(** [part_map["stt"] + part_map["llm"] + part_map["tts"]] *)
Definition total_ms (part_map : gmap string float) : float :=
  (item part_map "stt" + item part_map "llm" + item part_map "tts")%float.

(** The value the specification's [observe] hands back on completion.  The
    source has no such class: every path of [on_metrics_collected] ends in a
    bare [return] or falls off the end of the function. *)
Record CompletedLatency := {
  completed_key : key;
  completed_total : float
}.

(** What one call does: the tracker afterwards, the log lines in order, and
    the value returned to the caller ([None] is Python's [None]). *)
Record outcome := Outcome {
  tracker : LatencyTracker;
  logged : list log_record;
  returned : option CompletedLatency
}.

Definition on_metrics_collected (self : LatencyTracker) (ev : event) : outcome :=
  let metric := getattr_metrics ev in
  let stt_ms := _stt_latency_ms metric in
  let llm_ms := _llm_latency_ms metric in
  let tts_ms := _tts_latency_ms metric in
  let lines := log_latency (room_name self) stt_ms llm_ms tts_ms in
  match speech_id metric with
  | None => Outcome self lines None
  | Some k =>
    if negb (truthy k) then Outcome self lines None
    else
      (* part_map = self.parts.setdefault(key, {}) *)
      let parts1 :=
        match parts self !! k with
        | Some _ => parts self
        | None => <[k := ∅]> (parts self)
        end in
      let part_map := default ∅ (parts1 !! k) in
      (* the assignments mutate the dict object stored in self.parts *)
      let part_map := store_all stt_ms llm_ms tts_ms part_map in
      let parts2 := <[k := part_map]> parts1 in
      if all_present part_map then
        Outcome {| room_name := room_name self; parts := delete k parts2 |}
                (lines ++ [LogTotal (room_name self) k
                             (item part_map "stt") (item part_map "llm")
                             (item part_map "tts") (total_ms part_map)])
                None
      else
        Outcome {| room_name := room_name self; parts := parts2 |} lines None
  end.

(** A session: the callback applied to the events in their order of arrival;
    the outcomes are listed in the same order. *)
Fixpoint run (self : LatencyTracker) (evs : list event)
  : LatencyTracker * list outcome :=
  match evs with
  | [] => (self, [])
  | ev :: rest =>
    let o := on_metrics_collected self ev in
    let '(final, os) := run (tracker o) rest in
    (final, o :: os)
  end.

(** Events as the framework sends them: a bare metric object. *)
Definition bare (m : metric) : event := {| metrics := None; own_attrs := m |}.

Definition eou_event (delay : float) (k : option key) : event :=
  bare (Metric (Some delay) None None k).

Definition llm_event (t : float) (k : option key) : event :=
  bare (Metric None (Some t) None k).

Definition tts_event (t : float) (k : option key) : event :=
  bare (Metric None None (Some t) k).

(** ** Vocabulary of the statements *)

(** The three part names of line 74. *)
Inductive part := Stt | Llm | Tts.

Definition part_name (p : part) : string :=
  match p with Stt => "stt" | Llm => "llm" | Tts => "tts" end.

(** The latency in milliseconds an event carries for a part, if any. *)
Definition carried (m : metric) (p : part) : option float :=
  match p with
  | Stt => _stt_latency_ms m
  | Llm => _llm_latency_ms m
  | Tts => _tts_latency_ms m
  end.

(** The parts whose timing field the event carries. *)
Definition carried_parts (m : metric) : list part :=
  filter (fun p => is_Some (carried m p)) [Stt; Llm; Tts].

(** [self.parts[k][p]], when both are there. *)
Definition stored (self : LatencyTracker) (k : key) (p : part) : option float :=
  match parts self !! k with
  | Some part_map => part_map !! part_name p
  | None => None
  end.

(** The log line of a part. *)
Definition line (room : string) (p : part) (ms : float) : log_record :=
  match p with
  | Stt => LogStt room ms
  | Llm => LogLlm room ms
  | Tts => LogTts room ms
  end.

Definition is_total (l : log_record) : bool :=
  match l with LogTotal _ _ _ _ _ _ => true | _ => false end.

(** The component of a combined observation that belongs to a part. *)
Definition component (p : part) (stt llm tts : float) : float :=
  match p with Stt => stt | Llm => llm | Tts => tts end.

(** The value a part of key [k]'s record has once the event's fields are
    stored: the event's own value when it carries one, the stored one if not. *)
Definition latest (self : LatencyTracker) (m : metric) (k : key) (p : part)
  : option float :=
  match carried m p with
  | Some v => Some v
  | None => stored self k p
  end.

(** The same event with another [speech_id] on the metric object the
    tracker looks at. *)
Definition with_speech_id (k : option key) (ev : event) : event :=
  let set m := Metric (end_of_utterance_delay m) (ttft m) (ttfb m) k in
  match metrics ev with
  | Some m => {| metrics := Some (set m); own_attrs := own_attrs ev |}
  | None => {| metrics := None; own_attrs := set (own_attrs ev) |}
  end.

(** The record of key [k] after [setdefault] and the three stores. *)
Definition updated (self : LatencyTracker) (m : metric) (k : key)
  : gmap string float :=
  store_all (_stt_latency_ms m) (_llm_latency_ms m) (_tts_latency_ms m)
            (default ∅ (parts self !! k)).

(** ** Sample sessions *)

Definition key_a : key := KStr "a".

Definition key_b : key := KStr "b".

(** The three events of one turn: 0.1 s, 0.2 s and 0.05 s. *)
Definition three_events : list event :=
  [eou_event 0.1 (Some key_a); llm_event 0.2 (Some key_a); tts_event 0.05 (Some key_a)].

(** A tracker that has seen the first two of them. *)
Definition two_parts_seen : LatencyTracker :=
  fst (run (init "room") [eou_event 0.1 (Some key_a); llm_event 0.2 (Some key_a)]).

(** An event object that carries both [ttft] and [ttfb]. *)
Definition two_field_event : event :=
  bare (Metric None (Some 0.2%float) (Some 0.05%float) (Some key_a)).

(** An event object with a [speech_id] and none of the timing fields. *)
Definition unrelated_event : event :=
  bare (Metric None None None (Some key_a)).

(** ** More vocabulary and samples *)
(** An event that carries the timing field of one part. *)
Definition part_event (p : part) (seconds : float) (k : option key) : event :=
  match p with
  | Stt => eou_event seconds k
  | Llm => llm_event seconds k
  | Tts => tts_event seconds k
  end.

(** The seconds of the sample turn, by part. *)
Definition sample_seconds (p : part) : float :=
  match p with Stt => 0.1 | Llm => 0.2 | Tts => 0.05 end%float.

(** A tracker with one part of key [a] and one of key [b]. *)
Definition two_keys_pending : LatencyTracker :=
  fst (run (init "room") [eou_event 0.1 (Some key_a); llm_event 0.2 (Some key_b)]).

End Tracker.

(* ===================================================================== *)
(** * The synthesis bridge ([src/custom_tts/PiperTTSPluginLocal.py])      *)
(* ===================================================================== *)

Module Piper.

(** ** Samples and bytes *)

Definition byte_to_Z (b : byte) : Z := Z.of_N (Byte.to_N b).

Definition byte_of_Z (z : Z) : byte := default "000"%byte (Byte.of_N (Z.to_N z)).

(** One little-endian two's complement [np.int16] read from two bytes. *)
Definition int16_of_bytes (lo hi : byte) : Z :=
  let u := byte_to_Z lo + 256 * byte_to_Z hi in
  if u <? 32768 then u else u - 65536.

(** The two bytes of an [np.int16], low byte first. *)
Definition bytes_of_int16 (z : Z) : list byte :=
  let u := z mod 65536 in
  [byte_of_Z (u mod 256); byte_of_Z (u / 256)].

Definition is_int16 (z : Z) : Prop := -32768 <= z <= 32767.

(** [np.frombuffer(buf, dtype=np.int16)]: [None] is the [ValueError] for a
    buffer whose size is not a multiple of the element size. *)
Fixpoint frombuffer_int16 (buf : list byte) : option (list Z) :=
  match buf with
  | [] => Some []
  | [_] => None
  | lo :: hi :: rest =>
    match frombuffer_int16 rest with
    | Some audio => Some (int16_of_bytes lo hi :: audio)
    | None => None
    end
  end.

(** [audio.reshape(-1, 2)]: [None] is the [ValueError] for an odd number of
    samples. *)
Fixpoint reshape2 (audio : list Z) : option (list (Z * Z)) :=
  match audio with
  | [] => Some []
  | [_] => None
  | l :: r :: rest =>
    match reshape2 rest with
    | Some rows => Some ((l, r) :: rows)
    | None => None
    end
  end.

(** [.mean(axis=1)]: NumPy accumulates in float64, where the sum of two
    int16 values and half of it are exact, so the mean is the rational
    number itself. *)
Definition mean_axis1 (rows : list (Z * Z)) : list Q :=
  map (fun row => ((inject_Z (fst row) + inject_Z (snd row)) / 2)%Q) rows.

(** [.astype(np.int16)] of a float: the fractional part is dropped. *)
Definition astype_int16 (q : Q) : Z := Z.quot (Qnum q) (Zpos (Qden q)).

(** [audio.tobytes()] *)
Definition tobytes (audio : list Z) : list byte := flat_map bytes_of_int16 audio.

(** ** The container, as [wave.open] presents it *)

Record Wave_read := {
  getnchannels : nat;
  getsampwidth : nat;
  getframerate : Z;
  data_chunk : list byte
}.

Definition framesize (w : Wave_read) : nat := (getnchannels w * getsampwidth w)%nat.

Definition getnframes (w : Wave_read) : nat := (length (data_chunk w) / framesize w)%nat.

Definition readframes (w : Wave_read) (nframes : nat) : list byte :=
  take (nframes * framesize w)%nat (data_chunk w).

Inductive exn :=
  | FileNotFoundError (msg : string)
  | PermissionError (p : string)
  | CalledProcessError (returncode : Z)
  | WaveError              (* wave.Error, or EOFError on a file cut short *)
  | ValueError
  | CancelledError
  | OSError.

(** The body of [with wave.open(wav_file, 'rb') as w] in [_read]. *)
Definition read_body (w : Wave_read) : exn + list byte :=
  match frombuffer_int16 (readframes w (getnframes w)) with
  | None => inl ValueError
  | Some audio =>
    if Nat.eqb (getnchannels w) 2 then
      match reshape2 audio with
      | None => inl ValueError
      | Some rows => inr (tobytes (map astype_int16 (mean_axis1 rows)))
      end
    else inr (tobytes audio)
  end.

(** ** The filesystem and the plugin *)

Inductive content :=
  | NotWave                (* whatever [wave.open] rejects, the empty file too *)
  | Wave (w : Wave_read).

Record file := {
  executable : bool;
  body : content
}.

Record PiperTTSPlugin := {
  piper_path : string;
  model_path : string;
  speed : float;
  _sample_rate : Z
}.

(** The argument list and standard input of [subprocess.run] in [_generate]. *)
Record command := {
  argv0 : string;
  arg_model : string;
  arg_length_scale : float;
  arg_output_file : string;
  stdin : string
}.

(** What a call does to the world besides changing files. *)
Inductive effect :=
  | Initialize (sample_rate : Z) (num_channels : Z)
  | CreateTemp (p : string)
  | Spawn (cmd : command)
  | Unlink (p : string)
  | Push (audio : list byte).

(** What a call leaves behind: the files once the call has ended and a
    process it left running has exited, the effects of the call in order,
    and the exception it raised, if any. *)
Record result := Result {
  fs_after : gmap string file;
  effects : list effect;
  raised : option exn
}.

(** Where a caller's cancellation reaches the coroutine: at one of the two
    [await]s of [emit_audio].  [CancelledInGenerate] is a cancellation while
    the process that [_generate] started is running: the worker thread of
    [run_in_executor] is not stopped by it, and neither is the process. *)
Inductive cancellation :=
  | NotCancelled
  | CancelledInGenerate
  | CancelledInRead.

(** [os.path.exists] *)
Definition path_exists (fs : gmap string file) (p : string) : bool :=
  bool_decide (is_Some (fs !! p)).

Section Bridge.

(** [tempfile.NamedTemporaryFile(suffix='.wav', delete=False)]: the name
    it picks, [None] when the file cannot be created. *)
Variable mktemp : gmap string file -> option string.

(** The external engine: what running the command does to the files, and
    its exit code. *)
Variable engine : command -> gmap string file -> gmap string file * Z.

Definition _generate (self : PiperTTSPlugin) (input_text output_file : string)
    (fs : gmap string file) : result :=
  let cmd := {| argv0 := piper_path self;
                arg_model := model_path self;
                arg_length_scale := speed self;
                arg_output_file := output_file;
                stdin := input_text |} in
  match fs !! piper_path self with
  | None => Result fs [] (Some (FileNotFoundError (piper_path self)))
  | Some bin =>
    if executable bin then
      let '(fs', returncode) := engine cmd fs in
      (* check=True *)
      Result fs' [Spawn cmd]
             (if returncode =? 0 then None else Some (CalledProcessError returncode))
    else Result fs [] (Some (PermissionError (piper_path self)))
  end.

Definition _read (fs : gmap string file) (wav_file : string) : exn + list byte :=
  match fs !! wav_file with
  | None => inl (FileNotFoundError wav_file)
  | Some f =>
    match body f with
    | NotWave => inl WaveError
    | Wave w => read_body w
    end
  end.

(** The [finally] block: [os.unlink] under [try]/[except: pass].  On a
    path that is gone [os.unlink] raises and the [except] swallows it, which
    leaves the files as they are, as [delete] does. *)
Definition finally_unlink (temp_file : string) (fs : gmap string file)
  : gmap string file * list effect :=
  (delete temp_file fs, [Unlink temp_file]).

(** The [try] block of [emit_audio] up to its [yield]: the files after it,
    its effects, and the exception or the audio to yield. *)
Definition try_block (self : PiperTTSPlugin) (input_text temp_file : string)
    (c : cancellation) (fs : gmap string file)
  : gmap string file * list effect * (exn + list byte) :=
  let g := _generate self input_text temp_file fs in
  match c with
  | CancelledInGenerate =>
    (* the process, if it was started, has written nothing yet *)
    (fs, effects g, inl CancelledError)
  | _ =>
    match raised g with
    | Some e => (fs_after g, effects g, inl e)
    | None =>
      match c with
      | CancelledInRead => (fs_after g, effects g, inl CancelledError)
      | _ => (fs_after g, effects g, _read (fs_after g) temp_file)
      end
    end
  end.

(** What happens after a cancelled [await] of [_generate]: the worker
    thread goes on, so a process that was started runs to its end and its
    writes land on the files as the [finally] block left them. *)
Definition process_left_running (self : PiperTTSPlugin)
    (input_text temp_file : string) (c : cancellation) (fs : gmap string file)
  : gmap string file :=
  match c with
  | CancelledInGenerate => fs_after (_generate self input_text temp_file fs)
  | _ => fs
  end.

(** [emit_audio()] driven by [async for]: the generator runs to its
    [yield], the loop body pushes the chunk, and the generator is resumed
    and runs to its end through [finally].  An exception in the [try] block
    goes through [finally] on its way out.  [output_emitter.push] is the
    framework's and does not raise here. *)
Definition emit_audio_and_push (self : PiperTTSPlugin) (input_text : string)
    (c : cancellation) (fs : gmap string file) : result :=
  match mktemp fs with
  | None => Result fs [] (Some OSError)
  | Some temp_file =>
    let fs0 := <[temp_file := {| executable := false; body := NotWave |}]> fs in
    let '(fs1, eff, r) := try_block self input_text temp_file c fs0 in
    let '(fs2, eff_fin) := finally_unlink temp_file fs1 in
    let fs3 := process_left_running self input_text temp_file c fs2 in
    match r with
    | inl e => Result fs3 (CreateTemp temp_file :: eff ++ eff_fin) (Some e)
    | inr audio =>
      Result fs3 (CreateTemp temp_file :: eff ++ Push audio :: eff_fin) None
    end
  end.

Definition _run (self : PiperTTSPlugin) (input_text : string)
    (c : cancellation) (fs : gmap string file) : result :=
  if negb (path_exists fs (piper_path self)) then
    Result fs [] (Some (FileNotFoundError (String.append "Piper binary not found: " (piper_path self))))
  else if negb (path_exists fs (model_path self)) then
    Result fs [] (Some (FileNotFoundError (String.append "Piper model not found: " (model_path self))))
  else
    let r := emit_audio_and_push self input_text c fs in
    Result (fs_after r) (Initialize (_sample_rate self) 1 :: effects r) (raised r).

End Bridge.

(** ** Vocabulary of the statements *)

(** The samples of stereo frames in file order: left, right, left, ... *)
Definition interleave (rows : list (Z * Z)) : list Z :=
  flat_map (fun row => [fst row; snd row]) rows.

(** The average of a frame's two samples, cut toward zero as C's integer
    division does. *)
Definition truncated_average (row : Z * Z) : Z := Z.quot (fst row + snd row) 2.

Definition frame_in_range (row : Z * Z) : Prop :=
  is_int16 (fst row) /\ is_int16 (snd row).

(** ** Sample worlds *)

Definition plugin0 : PiperTTSPlugin :=
  {| piper_path := "/opt/piper"; model_path := "/opt/voice.onnx";
     speed := 1; _sample_rate := 22050 |}.

Definition plain_file : file := {| executable := false; body := NotWave |}.

Definition program_file : file := {| executable := true; body := NotWave |}.

(** Binary and model in place. *)
Definition fs_ready : gmap string file :=
  <["/opt/piper" := program_file]> (<["/opt/voice.onnx" := plain_file]> ∅).

(** The model alone. *)
Definition fs_no_binary : gmap string file :=
  <["/opt/voice.onnx" := plain_file]> ∅.

(** A binary without the execute permission. *)
Definition fs_not_executable : gmap string file :=
  <["/opt/piper" := plain_file]> (<["/opt/voice.onnx" := plain_file]> ∅).

Definition mktemp0 (fs : gmap string file) : option string := Some "/tmp/tmp0.wav".

(** An engine that writes the container [w] to its output file and exits 0. *)
Definition engine_writes (w : Wave_read) (cmd : command) (fs : gmap string file)
  : gmap string file * Z :=
  (<[arg_output_file cmd := {| executable := false; body := Wave w |}]> fs, 0).

(** An engine that touches no file and exits with [code]. *)
Definition engine_exits (code : Z) (cmd : command) (fs : gmap string file)
  : gmap string file * Z :=
  (fs, code).

(** Two stereo frames, [100, 200] and [4, -4]. *)
Definition stereo_wave : Wave_read :=
  {| getnchannels := 2; getsampwidth := 2; getframerate := 22050;
     data_chunk := tobytes (interleave [(100, 200); (4, -4)]) |}.

(** One frame of three 16-bit channels. *)
Definition three_channel_wave : Wave_read :=
  {| getnchannels := 3; getsampwidth := 2; getframerate := 22050;
     data_chunk := tobytes [1; 2; 3] |}.

(** Two frames of one 8-bit channel. *)
Definition eight_bit_wave : Wave_read :=
  {| getnchannels := 1; getsampwidth := 1; getframerate := 22050;
     data_chunk := tobytes [258] |}.

(** ** More vocabulary and samples *)

(** The frame bytes [_read] works on. *)
Definition frame_bytes (w : Wave_read) : list byte := readframes w (getnframes w).

(** The containers [_read] decodes without an exception: an even number of
    frame bytes, and whole pairs of samples when there are two channels. *)
Definition decodable (w : Wave_read) : bool :=
  Nat.even (length (frame_bytes w))
  && (negb (Nat.eqb (getnchannels w) 2)
      || Nat.eqb (length (frame_bytes w) mod 4) 0).

Definition is_push (e : effect) : bool :=
  match e with Push _ => true | _ => false end.

Definition is_spawn (e : effect) : bool :=
  match e with Spawn _ => true | _ => false end.

(** The command [_generate] runs. *)
Definition piper_command (self : PiperTTSPlugin) (input_text output_file : string)
  : command :=
  {| argv0 := piper_path self;
     arg_model := model_path self;
     arg_length_scale := speed self;
     arg_output_file := output_file;
     stdin := input_text |}.

(** The empty file [NamedTemporaryFile] leaves behind. *)
Definition empty_file : file := {| executable := false; body := NotWave |}.

(** Two stereo frames with the same sample on both channels. *)
Definition dual_mono_wave : Wave_read :=
  {| getnchannels := 2; getsampwidth := 2; getframerate := 22050;
     data_chunk := tobytes (interleave (map (fun s => (s, s)) [7; -9])) |}.

(** The world of a call on [fs_ready] once the temporary file is there. *)
Definition fs_with_temp : gmap string file :=
  <["/tmp/tmp0.wav" := empty_file]> fs_ready.

End Piper.

(* ===================================================================== *)
(** * Environment files and the choice of the binary
      ([_load_env_files] and [Assistant.__init__], in [src/agent.py],
      [src/agent_latency_test.py] and, as [load_env_files] and [main],
      in [src/tts_latency_test.py])                                        *)
(* ===================================================================== *)

Module Env.

(** The state of the loop of [_load_env_files]: the [seen] set, [os.environ],
    and the paths handed to [load_dotenv], in order. *)
Record loader := Loader {
  seen : gset string;
  environ : gmap string string;
  loaded : list string
}.

Section Loading.

(** [Path.resolve] and the [/] of [pathlib]. *)
Variable resolve : string -> string.
Variable joinpath : string -> string -> string.

(** The env files that exist ([env_path.exists()]), each with the
    assignments [load_dotenv] finds in it. *)
Variable files : gmap string (gmap string string).

(** The paths the two nested loops look at, in order: for each root,
    [.env] and then [.env.local]. *)
Definition candidates (search_roots : list string) : list string :=
  flat_map (fun root => map (fun filename => resolve (joinpath root filename))
                            [".env"; ".env.local"])
           search_roots.

(** [load_dotenv(dotenv_path=env_path, override=False)]: a variable that is
    set already keeps its value. *)
Definition load_dotenv (vars : gmap string string) (env : gmap string string)
  : gmap string string :=
  env ∪ vars.

(** One round of the inner loop body. *)
Definition visit (st : loader) (env_path : string) : loader :=
  if bool_decide (env_path ∈ seen st) || negb (bool_decide (is_Some (files !! env_path)))
  then st                                                        (* continue *)
  else {| seen := {[env_path]} ∪ seen st;
          environ := load_dotenv (default ∅ (files !! env_path)) (environ st);
          loaded := loaded st ++ [env_path] |}.

Definition _load_env_files (search_roots : list string) (env : gmap string string)
  : loader :=
  foldl visit {| seen := ∅; environ := env; loaded := [] |} (candidates search_roots).

End Loading.

(** Python's [a or b] for [a] a string or [None]. *)
Definition or_else (a : option string) (b : string) : string :=
  match a with
  | Some s => if String.eqb s "" then b else s
  | None => b
  end.

(** The binary [Assistant.__init__] settles on: the environment variable,
    else [shutil.which("piper")], else the path under the repository. *)
Definition piper_bin (env : gmap string string) (which : option string)
    (fallback : string) : string :=
  or_else (env !! "PIPER_PATH") (or_else which fallback).

(** ** A sample checkout *)

Definition resolve0 (p : string) : string := p.

Definition joinpath0 (root filename : string) : string :=
  String.append root (String.append "/" filename).

(** [/repo/src/.env.local] and [/repo/.env] exist. *)
Definition files0 : gmap string (gmap string string) :=
  <["/repo/src/.env.local" := <["PIPER_PATH" := "/src/piper"]> ∅]>
    (<["/repo/.env" := <["PIPER_PATH" := "/repo/piper"]>
                         (<["PIPER_MODEL_PATH" := "/repo/voice.onnx"]> ∅)]> ∅).

(** The script is run from its own directory: the working directory comes
    again as the first parent. *)
Definition roots0 : list string := ["/repo/src"; "/repo/src"; "/repo"].

Definition environ0 : gmap string string := <["HOME" := "/root"]> ∅.
End Env.

(* ===================================================================== *)
(** * Properties of the latency tracker                                   *)
(* ===================================================================== *)

Module TrackerProps.
Import Tracker.

Lemma returned_none self ev : returned (on_metrics_collected self ev) = None.
Proof.
  unfold on_metrics_collected.
  destruct (speech_id _) as [k|]; [|done].
  destruct (negb (truthy k)); [done|].
  by destruct (all_present _).
Qed.

Lemma room_name_kept self ev :
  room_name (tracker (on_metrics_collected self ev)) = room_name self.
Proof.
  unfold on_metrics_collected.
  destruct (speech_id _) as [k|]; [|done].
  destruct (negb (truthy k)); [done|].
  by destruct (all_present _).
Qed.

Lemma keyed_call self ev k :
  speech_id (getattr_metrics ev) = Some k -> truthy k = true ->
  let m := getattr_metrics ev in
  let lines := log_latency (room_name self) (_stt_latency_ms m) (_llm_latency_ms m) (_tts_latency_ms m) in
  let pm := updated self m k in
  on_metrics_collected self ev =
    if all_present pm then
      Outcome {| room_name := room_name self; parts := delete k (parts self) |}
              (lines ++ [LogTotal (room_name self) k (item pm "stt") (item pm "llm")
                                  (item pm "tts") (total_ms pm)]) None
    else Outcome {| room_name := room_name self; parts := <[k := pm]> (parts self) |} lines None.
Proof.
  intros Hk Ht. cbv zeta. unfold on_metrics_collected, updated. rewrite Hk, Ht. cbn [negb].
  destruct (parts self !! k) as [pm0|] eqn:Hl.
  - rewrite Hl. cbn [default]. rewrite delete_insert_eq. done.
  - rewrite lookup_insert_eq. cbn [default]. rewrite !insert_insert_eq, !delete_insert_eq. done.
Qed.

Lemma updated_lookup self m k p :
  updated self m k !! part_name p = latest self m k p.
Proof.
  unfold updated, store_all, latest, stored, store, carried.
  destruct (parts self !! k) as [pm0|]; cbn [default];
  destruct p; cbn [part_name];
  destruct (_stt_latency_ms m), (_llm_latency_ms m), (_tts_latency_ms m);
  by simplify_map_eq.
Qed.

Lemma all_present_latest self m k :
  all_present (updated self m k) = true <->
  is_Some (latest self m k Stt) /\ is_Some (latest self m k Llm) /\ is_Some (latest self m k Tts).
Proof.
  unfold all_present. cbn [forallb].
  rewrite <- (updated_lookup self m k Stt), <- (updated_lookup self m k Llm), <- (updated_lookup self m k Tts).
  cbn [part_name]. rewrite !andb_true_iff, !bool_decide_eq_true. tauto.
Qed.

Lemma keyless_call self ev :
  speech_id (getattr_metrics ev) = None ->
  on_metrics_collected self ev =
    Outcome self (log_latency (room_name self)
                    (_stt_latency_ms (getattr_metrics ev))
                    (_llm_latency_ms (getattr_metrics ev))
                    (_tts_latency_ms (getattr_metrics ev))) None.
Proof. intros H. unfold on_metrics_collected. by rewrite H. Qed.

Lemma falsy_call self ev k :
  speech_id (getattr_metrics ev) = Some k -> truthy k = false ->
  on_metrics_collected self ev =
    Outcome self (log_latency (room_name self)
                    (_stt_latency_ms (getattr_metrics ev))
                    (_llm_latency_ms (getattr_metrics ev))
                    (_tts_latency_ms (getattr_metrics ev))) None.
Proof. intros H Ht. unfold on_metrics_collected. by rewrite H, Ht. Qed.

Lemma log_latency_no_total room a b c :
  forallb (fun l => negb (is_total l)) (log_latency room a b c) = true.
Proof. by destruct a, b, c. Qed.

Lemma getattr_with_speech_id k ev :
  getattr_metrics (with_speech_id k ev) =
  Metric (end_of_utterance_delay (getattr_metrics ev)) (ttft (getattr_metrics ev))
         (ttfb (getattr_metrics ev)) k.
Proof. unfold with_speech_id, getattr_metrics. by destruct (metrics ev). Qed.

(** C3 (as amended): in the call after whose update the record of a truthy
    key has all three parts, the total is the sum stt + llm + tts of the
    three stored values, it is logged in one combined observation after the
    call's own latency line, and the key's record is removed, so that the key
    is absent right after.  The call returns nothing, as does every call: no
    completed-latency value is handed back. *)
Theorem completion_logs_sum_and_evicts self ev k stt llm tts :
  speech_id (getattr_metrics ev) = Some k ->
  truthy k = true ->
  latest self (getattr_metrics ev) k Stt = Some stt ->
  latest self (getattr_metrics ev) k Llm = Some llm ->
  latest self (getattr_metrics ev) k Tts = Some tts ->
  let m := getattr_metrics ev in
  let o := on_metrics_collected self ev in
  logged o =
    (log_latency (room_name self) (_stt_latency_ms m) (_llm_latency_ms m) (_tts_latency_ms m)
      ++ [LogTotal (room_name self) k stt llm tts (stt + llm + tts)%float])%list
  /\ parts (tracker o) !! k = None
  /\ returned o = None
  /\ (forall self' ev', returned (on_metrics_collected self' ev') = None).
Proof.
  intros Hk Ht Hs Hl Hts m o. subst o.
  rewrite (keyed_call self ev k Hk Ht). cbv zeta. fold m.
  assert (Hall : all_present (updated self m k) = true).
  { apply all_present_latest. subst m. rewrite Hs, Hl, Hts. eauto. }
  rewrite Hall. cbn [logged tracker parts returned].
  unfold total_ms, item.
  pose proof (updated_lookup self m k Stt) as E1.
  pose proof (updated_lookup self m k Llm) as E2.
  pose proof (updated_lookup self m k Tts) as E3.
  cbn [part_name] in E1, E2, E3. subst m.
  rewrite E1, E2, E3, Hs, Hl, Hts. cbn [default].
  split; [done|]. split; [apply lookup_delete_eq|]. split; [done|].
  apply returned_none.
Qed.

(** The third event of a turn: 100 + 200 + 50 = 350 ms, and key [a] is gone. *)
Lemma completion_logs_sum_and_evicts_witness :
  speech_id (getattr_metrics (tts_event 0.05 (Some key_a))) = Some key_a
  /\ truthy key_a = true
  /\ latest two_parts_seen (getattr_metrics (tts_event 0.05 (Some key_a))) key_a Stt = Some 100%float
  /\ latest two_parts_seen (getattr_metrics (tts_event 0.05 (Some key_a))) key_a Llm = Some 200%float
  /\ latest two_parts_seen (getattr_metrics (tts_event 0.05 (Some key_a))) key_a Tts = Some 50%float
  /\ logged (on_metrics_collected two_parts_seen (tts_event 0.05 (Some key_a)))
     = [LogTts "room" 50; LogTotal "room" key_a 100 200 50 350]
  /\ parts (tracker (on_metrics_collected two_parts_seen (tts_event 0.05 (Some key_a)))) !! key_a = None.
Proof.
  assert (H1 : speech_id (getattr_metrics (tts_event 0.05 (Some key_a))) = Some key_a) by reflexivity.
  assert (H2 : truthy key_a = true) by reflexivity.
  assert (H3 : latest two_parts_seen (getattr_metrics (tts_event 0.05 (Some key_a))) key_a Stt = Some 100%float)
    by (vm_compute; reflexivity).
  assert (H4 : latest two_parts_seen (getattr_metrics (tts_event 0.05 (Some key_a))) key_a Llm = Some 200%float)
    by (vm_compute; reflexivity).
  assert (H5 : latest two_parts_seen (getattr_metrics (tts_event 0.05 (Some key_a))) key_a Tts = Some 50%float)
    by (vm_compute; reflexivity).
  destruct (completion_logs_sum_and_evicts _ _ _ _ _ _ H1 H2 H3 H4 H5) as (L & P & _).
  repeat split; assumption.
Defined.

(** C3 as first stated fails: the call that completes the record logs the
    total and removes the key, and returns [None] like the two before it. *)
Lemma third_event_returns_nothing :
  map returned (snd (run (init "room") three_events)) = [None; None; None]
  /\ map logged (snd (run (init "room") three_events))
     = [[LogStt "room" 100]; [LogLlm "room" 200];
        [LogTts "room" 50; LogTotal "room" key_a 100 200 50 350]]
  /\ parts (fst (run (init "room") three_events)) !! key_a = None.
Proof. vm_compute. repeat split; reflexivity. Qed.

Lemma stored_insert self k pm p room :
  stored {| room_name := room; parts := <[k := pm]> (parts self) |} k p = pm !! part_name p.
Proof. unfold stored. cbn [parts]. by rewrite lookup_insert_eq. Qed.

(** One call on a keyed event that carries part [p]: afterwards the record
    holds the event's value for [p], or the record completed and the
    combined observation shows the event's value for [p]. *)
Lemma carried_value_wins self ev k p v :
  speech_id (getattr_metrics ev) = Some k ->
  truthy k = true ->
  carried (getattr_metrics ev) p = Some v ->
  let o := on_metrics_collected self ev in
  (stored (tracker o) k p = Some v
   /\ forallb (fun l => negb (is_total l)) (logged o) = true)
  \/ (exists stt llm tts,
        last (logged o) = Some (LogTotal (room_name self) k stt llm tts (stt + llm + tts)%float)
        /\ component p stt llm tts = v
        /\ parts (tracker o) !! k = None).
Proof.
  intros Hk Ht Hc o. subst o. rewrite (keyed_call self ev k Hk Ht). cbv zeta.
  set (m := getattr_metrics ev) in *.
  assert (Hp : latest self m k p = Some v) by (unfold latest; by rewrite Hc).
  destruct (all_present (updated self m k)) eqn:Hall.
  - right. apply all_present_latest in Hall as ([a Ha] & [b Hb] & [c Hcc]).
    exists a, b, c. cbn [logged tracker parts].
    unfold total_ms, item.
    pose proof (updated_lookup self m k Stt) as E1.
    pose proof (updated_lookup self m k Llm) as E2.
    pose proof (updated_lookup self m k Tts) as E3.
    cbn [part_name] in E1, E2, E3.
    rewrite E1, E2, E3, Ha, Hb, Hcc. cbn [default].
    split; [by rewrite last_snoc|]. split; [|apply lookup_delete_eq].
    destruct p; cbn [component]; congruence.
  - left. cbn [logged tracker]. split; [|apply log_latency_no_total].
    rewrite stored_insert, updated_lookup. exact Hp.
Qed.

(** C7: for every truthy key and every part, when a first event stores a
    value for the part and the record stays pending, a second event for the
    same part overwrites it: afterwards the record holds the second value,
    or, if this call completes the record, the combined observation shows the
    second value for that part and the total is the sum of the three logged
    components.  Nothing is averaged and nothing is rejected. *)
Theorem last_write_wins self ev1 ev2 k p v1 v2 :
  speech_id (getattr_metrics ev1) = Some k ->
  speech_id (getattr_metrics ev2) = Some k ->
  truthy k = true ->
  carried (getattr_metrics ev1) p = Some v1 ->
  carried (getattr_metrics ev2) p = Some v2 ->
  let o1 := on_metrics_collected self ev1 in
  let o2 := on_metrics_collected (tracker o1) ev2 in
  is_Some (parts (tracker o1) !! k) ->
  stored (tracker o1) k p = Some v1
  /\ ((stored (tracker o2) k p = Some v2
       /\ forallb (fun l => negb (is_total l)) (logged o2) = true)
      \/ (exists stt llm tts,
            last (logged o2)
              = Some (LogTotal (room_name self) k stt llm tts (stt + llm + tts)%float)
            /\ component p stt llm tts = v2
            /\ parts (tracker o2) !! k = None)).
Proof.
  intros Hk1 Hk2 Ht Hc1 Hc2 o1 o2 Hpending. subst o2. subst o1. split.
  - destruct (carried_value_wins self ev1 k p v1 Hk1 Ht Hc1) as [[H _]|(a & b & c & _ & _ & Hgone)].
    + exact H.
    + rewrite Hgone in Hpending. by destruct Hpending.
  - pose proof (carried_value_wins (tracker (on_metrics_collected self ev1)) ev2 k p v2 Hk2 Ht Hc2) as H.
    cbv zeta in H. rewrite room_name_kept in H. exact H.
Qed.

(** Two stt events for key [b]: the record holds 300 ms, not 100 ms. *)
Lemma last_write_wins_witness :
  speech_id (getattr_metrics (eou_event 0.1 (Some key_b))) = Some key_b
  /\ speech_id (getattr_metrics (eou_event 0.3 (Some key_b))) = Some key_b
  /\ truthy key_b = true
  /\ carried (getattr_metrics (eou_event 0.1 (Some key_b))) Stt = Some 100%float
  /\ carried (getattr_metrics (eou_event 0.3 (Some key_b))) Stt = Some 300%float
  /\ is_Some (parts (tracker (on_metrics_collected (init "room") (eou_event 0.1 (Some key_b)))) !! key_b)
  /\ stored (tracker (on_metrics_collected (init "room") (eou_event 0.1 (Some key_b)))) key_b Stt
     = Some 100%float
  /\ stored (tracker (on_metrics_collected
                        (tracker (on_metrics_collected (init "room") (eou_event 0.1 (Some key_b))))
                        (eou_event 0.3 (Some key_b)))) key_b Stt
     = Some 300%float.
Proof.
  assert (H1 : speech_id (getattr_metrics (eou_event 0.1 (Some key_b))) = Some key_b) by reflexivity.
  assert (H2 : speech_id (getattr_metrics (eou_event 0.3 (Some key_b))) = Some key_b) by reflexivity.
  assert (H3 : truthy key_b = true) by reflexivity.
  assert (H4 : carried (getattr_metrics (eou_event 0.1 (Some key_b))) Stt = Some 100%float)
    by (vm_compute; reflexivity).
  assert (H5 : carried (getattr_metrics (eou_event 0.3 (Some key_b))) Stt = Some 300%float)
    by (vm_compute; reflexivity).
  assert (H6 : is_Some (parts (tracker (on_metrics_collected (init "room")
                                          (eou_event 0.1 (Some key_b)))) !! key_b))
    by (vm_compute; eauto).
  destruct (last_write_wins (init "room") _ _ key_b Stt _ _ H1 H2 H3 H4 H5 H6)
    as [Hfirst [[Hsecond _]|(a & b & c & _ & _ & Hgone)]].
  - repeat split; assumption.
  - vm_compute in Hgone. discriminate Hgone.
Defined.

(** The completion total after a repeated part: 300 + 200 + 50, not 100 +
    300 + 200 + 50. *)
Example repeated_part_total :
  map logged (snd (run (init "room")
     [eou_event 0.1 (Some key_b); eou_event 0.3 (Some key_b);
      llm_event 0.2 (Some key_b); tts_event 0.05 (Some key_b)]))
  = [[LogStt "room" 100]; [LogStt "room" 300]; [LogLlm "room" 200];
     [LogTts "room" 50; LogTotal "room" key_b 300 200 50 550]].
Proof. vm_compute. reflexivity. Qed.

(** C8: however many events without a correlation key arrive, the tracker
    is the same after them, and each such call leaves the tracker as it
    was, returns nothing and logs no combined observation. *)
Theorem keyless_events_leave_the_table self evs :
  Forall (fun ev => speech_id (getattr_metrics ev) = None) evs ->
  fst (run self evs) = self
  /\ Forall (fun o => tracker o = self
                      /\ returned o = None
                      /\ forallb (fun l => negb (is_total l)) (logged o) = true)
            (snd (run self evs)).
Proof.
  induction 1 as [|ev evs Hev _ IH]; cbn [run].
  - split; [reflexivity | constructor].
  - rewrite (keyless_call self ev Hev). cbn [tracker].
    destruct (run self evs) as [final os]. cbn [fst snd] in *.
    destruct IH as [IH1 IH2]. split; [exact IH1|].
    constructor; [|exact IH2]. cbn [tracker returned logged].
    split; [reflexivity|]. split; [reflexivity|]. apply log_latency_no_total.
Qed.

(** Three events without a key on a tracker with a pending record. *)
Lemma keyless_events_leave_the_table_witness :
  Forall (fun ev => speech_id (getattr_metrics ev) = None)
         [eou_event 0.1 None; llm_event 0.2 None; tts_event 0.05 None]
  /\ fst (run two_parts_seen [eou_event 0.1 None; llm_event 0.2 None; tts_event 0.05 None])
     = two_parts_seen
  /\ map returned
       (snd (run two_parts_seen [eou_event 0.1 None; llm_event 0.2 None; tts_event 0.05 None]))
     = [None; None; None].
Proof.
  assert (H : Forall (fun ev => speech_id (getattr_metrics ev) = None)
                     [eou_event 0.1 None; llm_event 0.2 None; tts_event 0.05 None])
    by (repeat constructor).
  destruct (keyless_events_leave_the_table two_parts_seen _ H) as [Hfst _].
  split; [exact H|]. split; [exact Hfst|]. vm_compute. reflexivity.
Defined.

(** C10: an event whose key is falsy (the empty string, the integer 0) is
    handled exactly like the same event without a key: the outcome is the
    same, the tracker is unchanged, the latency line is logged if the event
    carries a timing field, and nothing is returned. *)
Theorem falsy_key_is_no_key self ev k :
  speech_id (getattr_metrics ev) = Some k ->
  truthy k = false ->
  let m := getattr_metrics ev in
  let o := on_metrics_collected self ev in
  o = on_metrics_collected self (with_speech_id None ev)
  /\ tracker o = self
  /\ logged o = log_latency (room_name self)
                  (_stt_latency_ms m) (_llm_latency_ms m) (_tts_latency_ms m)
  /\ returned o = None.
Proof.
  intros Hk Ht m o. subst o m.
  rewrite (falsy_call self ev k Hk Ht).
  rewrite (keyless_call self (with_speech_id None ev))
    by (by rewrite getattr_with_speech_id).
  rewrite getattr_with_speech_id. done.
Qed.

(** An stt event whose key is the empty string. *)
Lemma falsy_key_is_no_key_witness :
  speech_id (getattr_metrics (eou_event 0.1 (Some (KStr "")))) = Some (KStr "")
  /\ truthy (KStr "") = false
  /\ on_metrics_collected two_parts_seen (eou_event 0.1 (Some (KStr "")))
     = on_metrics_collected two_parts_seen (eou_event 0.1 None)
  /\ tracker (on_metrics_collected two_parts_seen (eou_event 0.1 (Some (KStr "")))) = two_parts_seen
  /\ logged (on_metrics_collected two_parts_seen (eou_event 0.1 (Some (KStr ""))))
     = [LogStt "room" 100].
Proof.
  assert (H1 : speech_id (getattr_metrics (eou_event 0.1 (Some (KStr "")))) = Some (KStr ""))
    by reflexivity.
  assert (H2 : truthy (KStr "") = false) by reflexivity.
  destruct (falsy_key_is_no_key two_parts_seen _ _ H1 H2) as (E & T & L & _).
  repeat split; assumption.
Defined.

(** The integer 0 is a falsy key as well. *)
Example zero_key_is_falsy :
  truthy (KInt 0) = false
  /\ tracker (on_metrics_collected (init "room") (llm_event 0.2 (Some (KInt 0)))) = init "room".
Proof. split; reflexivity. Qed.

(** A call changes only the parts whose timing field the event carries: any
    other part of any record keeps its value, unless the record completed in
    this call and was removed. *)
Lemma parts_not_carried_kept self ev q k :
  carried (getattr_metrics ev) q = None ->
  let o := on_metrics_collected self ev in
  stored (tracker o) k q = stored self k q \/ parts (tracker o) !! k = None.
Proof.
  intros Hq o. subst o.
  destruct (speech_id (getattr_metrics ev)) as [k0|] eqn:Hk;
    [|left; by rewrite (keyless_call self ev Hk)].
  destruct (truthy k0) eqn:Ht; [|left; by rewrite (falsy_call self ev k0 Hk Ht)].
  rewrite (keyed_call self ev k0 Hk Ht). cbv zeta.
  destruct (all_present _); cbn [tracker].
  - destruct (decide (k0 = k)) as [->|Hne].
    + right. cbn [parts]. apply lookup_delete_eq.
    + left. unfold stored. cbn [parts]. by rewrite lookup_delete_ne.
  - left. destruct (decide (k0 = k)) as [->|Hne].
    + rewrite stored_insert, updated_lookup. unfold latest. by rewrite Hq.
    + unfold stored. cbn [parts]. by rewrite lookup_insert_ne.
Qed.

Lemma carried_parts_single m p q :
  carried_parts m = [p] -> q <> p -> carried m q = None.
Proof.
  intros H Hne. destruct (carried m q) as [v|] eqn:E; [|reflexivity].
  exfalso. apply Hne.
  assert (Hin : q ∈ carried_parts m).
  { apply list_elem_of_filter. split; [rewrite E; eauto|].
    destruct q; repeat constructor. }
  rewrite H in Hin. by apply list_elem_of_singleton in Hin.
Qed.

(** C9 (as amended): an event that carries exactly one of the three timing
    fields is logged as that kind, and the call updates at most that one
    part: every other part of every record keeps its value, unless the
    record completed in this call and was removed. *)
Theorem one_field_one_part self ev p v :
  carried_parts (getattr_metrics ev) = [p] ->
  carried (getattr_metrics ev) p = Some v ->
  let o := on_metrics_collected self ev in
  head (logged o) = Some (line (room_name self) p v)
  /\ (forall k q, q <> p ->
        stored (tracker o) k q = stored self k q \/ parts (tracker o) !! k = None).
Proof.
  intros Hps Hv o. split.
  - assert (Hlines : log_latency (room_name self)
                       (_stt_latency_ms (getattr_metrics ev))
                       (_llm_latency_ms (getattr_metrics ev))
                       (_tts_latency_ms (getattr_metrics ev))
                     = [line (room_name self) p v]).
    { pose proof (carried_parts_single _ p Stt Hps) as N1.
      pose proof (carried_parts_single _ p Llm Hps) as N2.
      pose proof (carried_parts_single _ p Tts Hps) as N3.
      unfold carried in *.
      destruct p; cbn [line]; rewrite ?N1, ?N2, ?N3 by discriminate;
        rewrite Hv; reflexivity. }
    subst o. unfold on_metrics_collected. rewrite Hlines.
    destruct (speech_id _) as [k|]; [|done].
    destruct (negb (truthy k)); [done|].
    by destruct (all_present _).
  - intros k q Hne. apply parts_not_carried_kept.
    by apply (carried_parts_single _ p q).
Qed.

(** An llm event on a fresh tracker. *)
Lemma one_field_one_part_witness :
  carried_parts (getattr_metrics (llm_event 0.2 (Some key_a))) = [Llm]
  /\ carried (getattr_metrics (llm_event 0.2 (Some key_a))) Llm = Some 200%float
  /\ head (logged (on_metrics_collected (init "room") (llm_event 0.2 (Some key_a))))
     = Some (LogLlm "room" 200)
  /\ stored (tracker (on_metrics_collected (init "room") (llm_event 0.2 (Some key_a)))) key_a Llm
     = Some 200%float.
Proof.
  assert (H1 : carried_parts (getattr_metrics (llm_event 0.2 (Some key_a))) = [Llm])
    by (vm_compute; reflexivity).
  assert (H2 : carried (getattr_metrics (llm_event 0.2 (Some key_a))) Llm = Some 200%float)
    by (vm_compute; reflexivity).
  destruct (one_field_one_part (init "room") _ Llm _ H1 H2) as [Hlog _].
  split; [exact H1|]. split; [exact H2|]. split; [exact Hlog|].
  vm_compute. reflexivity.
Defined.

(** C9 as first stated fails: one call on an event with two timing fields
    logs one kind and stores two parts, and an event with no timing field is
    of no kind. *)
Lemma two_fields_update_two_parts :
  carried_parts (getattr_metrics two_field_event) = [Llm; Tts]
  /\ stored (init "room") key_a Llm = None
  /\ stored (init "room") key_a Tts = None
  /\ logged (on_metrics_collected (init "room") two_field_event) = [LogLlm "room" 200]
  /\ stored (tracker (on_metrics_collected (init "room") two_field_event)) key_a Llm
     = Some 200%float
  /\ stored (tracker (on_metrics_collected (init "room") two_field_event)) key_a Tts
     = Some 50%float
  /\ carried_parts (getattr_metrics unrelated_event) = [].
Proof. vm_compute. repeat split; reflexivity. Qed.

(** C6, the call on which the code leaves the claim: an event with a new
    key and no timing field logs nothing and returns nothing, yet
    [setdefault] leaves an empty record under its key. *)
Lemma unrelated_event_leaves_empty_record :
  parts (init "room") !! key_a = None
  /\ logged (on_metrics_collected (init "room") unrelated_event) = []
  /\ returned (on_metrics_collected (init "room") unrelated_event) = None
  /\ parts (tracker (on_metrics_collected (init "room") unrelated_event)) !! key_a = Some ∅
  /\ parts (tracker (on_metrics_collected (init "room") unrelated_event)) = {[ key_a := ∅ ]}.
Proof. vm_compute. repeat split; reflexivity. Qed.

(** What does hold of an event with no timing field: it logs no latency
    line, and the table stays as it is when the event has no key, a falsy
    key, or the key of a record that is there and incomplete. *)
Lemma unrelated_event_known_key self ev k pm :
  carried_parts (getattr_metrics ev) = [] ->
  speech_id (getattr_metrics ev) = Some k ->
  parts self !! k = Some pm ->
  all_present pm = false ->
  on_metrics_collected self ev = Outcome self [] None.
Proof.
  intros Hnone Hk Hpm Hinc.
  assert (Hc : forall q, carried (getattr_metrics ev) q = None).
  { intros q. destruct (carried (getattr_metrics ev) q) eqn:E; [|reflexivity].
    exfalso. assert (Hin : q ∈ carried_parts (getattr_metrics ev)).
    { apply list_elem_of_filter. split; [rewrite E; eauto|]. destruct q; repeat constructor. }
    rewrite Hnone in Hin. by apply elem_of_nil in Hin. }
  pose proof (Hc Stt) as C1. pose proof (Hc Llm) as C2. pose proof (Hc Tts) as C3.
  cbn [carried] in C1, C2, C3.
  destruct (truthy k) eqn:Ht.
  - rewrite (keyed_call self ev k Hk Ht). cbv zeta. unfold updated.
    rewrite C1, C2, C3, Hpm. unfold store_all, store, log_latency. cbn [from_option id].
    rewrite Hinc. destruct self as [room tbl]. cbn [room_name parts] in *.
    by rewrite insert_id.
  - rewrite (falsy_call self ev k Hk Ht). by rewrite C1, C2, C3.
Qed.
End TrackerProps.

(* ===================================================================== *)
(** * Properties of the synthesis bridge                                  *)
(* ===================================================================== *)

Module PiperProps.
Import Piper.

(** ** Bytes and samples *)

Lemma byte_to_Z_range b : 0 <= byte_to_Z b < 256.
Proof. unfold byte_to_Z. pose proof (Byte.to_N_bounded b). lia. Qed.

Lemma byte_of_to_Z b : byte_of_Z (byte_to_Z b) = b.
Proof. unfold byte_of_Z, byte_to_Z. by rewrite N2Z.id, Byte.of_to_N. Qed.

Lemma byte_to_of_Z z : 0 <= z < 256 -> byte_to_Z (byte_of_Z z) = z.
Proof.
  intros Hz. unfold byte_of_Z, byte_to_Z.
  destruct (Byte.of_N (Z.to_N z)) as [b|] eqn:E.
  - cbn. apply Byte.to_of_N in E. rewrite E. lia.
  - apply Byte.of_N_None_iff in E. lia.
Qed.

Lemma bytes_of_int16_of_bytes lo hi :
  bytes_of_int16 (int16_of_bytes lo hi) = [lo; hi].
Proof.
  unfold bytes_of_int16, int16_of_bytes.
  pose proof (byte_to_Z_range lo) as Hlo. pose proof (byte_to_Z_range hi) as Hhi.
  set (u := byte_to_Z lo + 256 * byte_to_Z hi).
  assert (Hu : (if u <? 32768 then u else u - 65536) mod 65536 = u).
  { destruct (Z.ltb_spec u 32768).
    - apply Z.mod_small. lia.
    - replace (u - 65536) with (u + (-1) * 65536) by lia.
      rewrite Z.mod_add by lia. apply Z.mod_small. lia. }
  cbv zeta. rewrite Hu.
  assert (H1 : u mod 256 = byte_to_Z lo).
  { unfold u. rewrite Z.mul_comm, Z.mod_add by lia. apply Z.mod_small. lia. }
  assert (H2 : u / 256 = byte_to_Z hi).
  { unfold u. rewrite Z.mul_comm, Z.div_add by lia. rewrite Z.div_small by lia. lia. }
  by rewrite H1, H2, !byte_of_to_Z.
Qed.

Lemma int16_of_bytes_of_int16 z :
  is_int16 z ->
  exists lo hi, bytes_of_int16 z = [lo; hi] /\ int16_of_bytes lo hi = z.
Proof.
  intros Hz. unfold bytes_of_int16. cbv zeta.
  set (u := z mod 65536).
  assert (Hu : 0 <= u < 65536) by (apply Z.mod_pos_bound; lia).
  exists (byte_of_Z (u mod 256)), (byte_of_Z (u / 256)). split; [reflexivity|].
  unfold int16_of_bytes.
  rewrite !byte_to_of_Z.
  2:{ split; [apply Z.div_pos; lia | apply Z.div_lt_upper_bound; lia]. }
  2:{ apply Z.mod_pos_bound. lia. }
  assert (E : u mod 256 + 256 * (u / 256) = u).
  { pose proof (Z.div_mod u 256). lia. }
  cbv zeta. rewrite E.
  destruct (Z.ltb_spec u 32768) as [Hlt|Hge].
  - unfold u in *. unfold is_int16 in Hz.
    destruct (Z.neg_nonneg_cases z) as [Hn|Hp].
    + replace (z mod 65536) with (z + 65536) in Hlt; [lia|].
      apply (Z.mod_unique _ _ (-1)); lia.
    + apply Z.mod_small. lia.
  - unfold u in *. unfold is_int16 in Hz.
    destruct (Z.neg_nonneg_cases z) as [Hn|Hp].
    + replace (z mod 65536) with (z + 65536); [lia|].
      apply (Z.mod_unique _ _ (-1)); lia.
    + rewrite Z.mod_small in Hge by lia. lia.
Qed.

Lemma frombuffer_tobytes audio :
  Forall is_int16 audio -> frombuffer_int16 (tobytes audio) = Some audio.
Proof.
  induction 1 as [|z audio Hz _ IH]; [reflexivity|].
  unfold tobytes in *. cbn [flat_map].
  destruct (int16_of_bytes_of_int16 z Hz) as (lo & hi & -> & <-).
  cbn [app frombuffer_int16]. by rewrite IH.
Qed.

Lemma two_step_ind {A} (P : list A -> Prop) :
  P [] -> (forall b, P [b]) -> (forall lo hi rest, P rest -> P (lo :: hi :: rest)) ->
  forall buf, P buf.
Proof.
  intros H0 H1 H2.
  fix IH 1. intros [|lo [|hi rest]]; [exact H0 | apply H1 | apply H2, IH].
Qed.

Lemma tobytes_frombuffer buf audio :
  frombuffer_int16 buf = Some audio -> tobytes audio = buf.
Proof.
  revert audio. induction buf as [| b | lo hi rest IH] using two_step_ind;
    intros audio; cbn [frombuffer_int16].
  - by intros [= <-].
  - discriminate.
  - destruct (frombuffer_int16 rest) as [a|]; [|discriminate].
    intros [= <-]. unfold tobytes in *. cbn [flat_map].
    by rewrite bytes_of_int16_of_bytes, (IH a eq_refl).
Qed.

Lemma frombuffer_even buf :
  Nat.even (length buf) = true -> is_Some (frombuffer_int16 buf).
Proof.
  induction buf as [| b | lo hi rest IH] using two_step_ind; cbn [frombuffer_int16].
  - eauto.
  - discriminate.
  - intros H. destruct (IH H) as [a ->]. eauto.
Qed.

Lemma frombuffer_odd buf :
  Nat.even (length buf) = false -> frombuffer_int16 buf = None.
Proof.
  induction buf as [| b | lo hi rest IH] using two_step_ind; cbn [frombuffer_int16].
  - discriminate.
  - reflexivity.
  - intros H. by rewrite (IH H).
Qed.

Lemma reshape2_interleave rows : reshape2 (interleave rows) = Some rows.
Proof.
  induction rows as [|[l r] rows IH]; [reflexivity|].
  unfold interleave in *. cbn [flat_map app fst snd reshape2]. by rewrite IH.
Qed.

Lemma interleave_in_range rows :
  Forall frame_in_range rows -> Forall is_int16 (interleave rows).
Proof.
  induction 1 as [|[l r] rows [Hl Hr] _ IH]; [constructor|].
  unfold interleave in *. cbn [flat_map app fst snd] in *.
  constructor; [exact Hl|]. constructor; [exact Hr|]. exact IH.
Qed.

Lemma astype_mean row :
  astype_int16 ((inject_Z (fst row) + inject_Z (snd row)) / 2)%Q = truncated_average row.
Proof.
  destruct row as [l r]. unfold astype_int16, truncated_average. cbn.
  f_equal; lia.
Qed.

Lemma downmix_is_truncated_average rows :
  map astype_int16 (mean_axis1 rows) = map truncated_average rows.
Proof.
  unfold mean_axis1. rewrite map_map. apply map_ext. intros row. apply astype_mean.
Qed.

Lemma truncated_average_in_range row :
  frame_in_range row -> is_int16 (truncated_average row).
Proof.
  destruct row as [l r]. unfold frame_in_range, truncated_average, is_int16. cbn [fst snd].
  intros [Hl Hr]. split.
  - apply Z.quot_le_lower_bound; lia.
  - apply Z.quot_le_upper_bound; lia.
Qed.

Lemma length_tobytes audio : length (tobytes audio) = (2 * length audio)%nat.
Proof.
  induction audio as [|z audio IH]; [reflexivity|].
  unfold tobytes in *. cbn [flat_map bytes_of_int16 app length]. rewrite IH. lia.
Qed.

Lemma length_interleave rows : length (interleave rows) = (2 * length rows)%nat.
Proof.
  induction rows as [|row rows IH]; [reflexivity|].
  unfold interleave in *. cbn [flat_map app length]. rewrite IH. lia.
Qed.

(** A chunk of whole frames is read in full. *)
Lemma readframes_all w n :
  framesize w <> 0%nat ->
  length (data_chunk w) = (n * framesize w)%nat ->
  readframes w (getnframes w) = data_chunk w.
Proof.
  intros Hfs Hlen. unfold readframes, getnframes.
  rewrite Hlen, Nat.div_mul by exact Hfs. rewrite <- Hlen. apply firstn_all.
Qed.

(** The same for the body of [_read], whatever the sample width says. *)
Lemma read_body_stereo w rows :
  getnchannels w = 2%nat ->
  getsampwidth w = 2%nat ->
  data_chunk w = tobytes (interleave rows) ->
  Forall frame_in_range rows ->
  read_body w = inr (tobytes (map truncated_average rows)).
Proof.
  intros Hch Hsw Hdata Hrange. unfold read_body.
  rewrite (readframes_all w (length rows)).
  - rewrite Hdata, (frombuffer_tobytes _ (interleave_in_range _ Hrange)), Hch.
    cbn [Nat.eqb]. by rewrite reshape2_interleave, downmix_is_truncated_average.
  - unfold framesize. rewrite Hch, Hsw. discriminate.
  - unfold framesize. rewrite Hch, Hsw, Hdata, length_tobytes, length_interleave. lia.
Qed.

(** C2: for a 16-bit stereo container made of whole frames, each in the
    int16 range, [_read] returns the bytes of one sample per frame, and that
    sample is the average of the frame's two samples cut toward zero, as
    integer division in C cuts it; read back as int16, the output is that
    list of averages. *)
Theorem stereo_downmix fs wav_file f w rows :
  fs !! wav_file = Some f ->
  body f = Wave w ->
  getnchannels w = 2%nat ->
  getsampwidth w = 2%nat ->
  data_chunk w = tobytes (interleave rows) ->
  Forall frame_in_range rows ->
  _read fs wav_file = inr (tobytes (map truncated_average rows))
  /\ frombuffer_int16 (tobytes (map truncated_average rows))
     = Some (map truncated_average rows).
Proof.
  intros Hf Hb Hch Hsw Hdata Hrange. split.
  - unfold _read. rewrite Hf, Hb. by apply read_body_stereo.
  - apply frombuffer_tobytes. apply Forall_map.
    eapply Forall_impl; [exact Hrange|]. apply truncated_average_in_range.
Qed.

(** The frames [100, 200] and [4, -4] give the samples 150 and 0. *)
Lemma stereo_downmix_witness :
  <["/tmp/out.wav" := {| executable := false; body := Wave stereo_wave |}]> fs_ready
    !! "/tmp/out.wav" = Some {| executable := false; body := Wave stereo_wave |}
  /\ getnchannels stereo_wave = 2%nat
  /\ getsampwidth stereo_wave = 2%nat
  /\ Forall frame_in_range [(100, 200); (4, -4)]
  /\ _read (<["/tmp/out.wav" := {| executable := false; body := Wave stereo_wave |}]> fs_ready)
           "/tmp/out.wav"
     = inr (tobytes [150; 0])
  /\ frombuffer_int16 (tobytes [150; 0]) = Some [150; 0].
Proof.
  assert (Hf : <["/tmp/out.wav" := {| executable := false; body := Wave stereo_wave |}]> fs_ready
                 !! "/tmp/out.wav" = Some {| executable := false; body := Wave stereo_wave |})
    by apply lookup_insert_eq.
  assert (Hr : Forall frame_in_range [(100, 200); (4, -4)])
    by (repeat constructor; cbn; lia).
  destruct (stereo_downmix _ _ _ stereo_wave [(100, 200); (4, -4)]
              Hf eq_refl eq_refl eq_refl eq_refl Hr) as [Hread Hback].
  repeat split; try assumption; cbn; lia.
Defined.

(** Cutting toward zero is not rounding down: the frame [-1, 0] gives 0,
    and [-3, 0] gives -1. *)
Example negative_frames_cut_toward_zero :
  map truncated_average [(-1, 0); (-3, 0); (-32768, -32768); (32767, 32767)]
  = [0; -1; -32768; 32767].
Proof. reflexivity. Qed.

(** No format check: a container with another channel count than 2 has its
    frame bytes handed on as they are, when they are an even number. *)
Lemma read_body_passthrough w :
  getnchannels w <> 2%nat ->
  Nat.even (length (readframes w (getnframes w))) = true ->
  read_body w = inr (readframes w (getnframes w)).
Proof.
  intros Hch Heven. unfold read_body.
  destruct (frombuffer_even _ Heven) as [audio Ha]. rewrite Ha.
  apply Nat.eqb_neq in Hch. rewrite Hch. by rewrite (tobytes_frombuffer _ _ Ha).
Qed.

(** With an odd number of frame bytes the failure is NumPy's [ValueError]. *)
Lemma read_body_odd w :
  Nat.even (length (readframes w (getnframes w))) = false ->
  read_body w = inl ValueError.
Proof. intros Hodd. unfold read_body. by rewrite (frombuffer_odd _ Hodd). Qed.

(** C5 (as amended): the decoder checks neither the channel count nor the
    sample width.  For a container whose channel count is not 2, whatever
    its sample width, [_read] returns the frame bytes unchanged when they
    are an even number: it does not fail. *)
Theorem unsupported_format_passes_through fs wav_file f w :
  fs !! wav_file = Some f ->
  body f = Wave w ->
  getnchannels w <> 2%nat ->
  Nat.even (length (readframes w (getnframes w))) = true ->
  _read fs wav_file = inr (readframes w (getnframes w)).
Proof.
  intros Hf Hb Hch Heven. unfold _read. rewrite Hf, Hb.
  by apply read_body_passthrough.
Qed.

(** A container of three 16-bit channels. *)
Lemma unsupported_format_passes_through_witness :
  <["/tmp/out.wav" := {| executable := false; body := Wave three_channel_wave |}]> fs_ready
    !! "/tmp/out.wav" = Some {| executable := false; body := Wave three_channel_wave |}
  /\ Nat.even (length (readframes three_channel_wave (getnframes three_channel_wave))) = true
  /\ _read (<["/tmp/out.wav" := {| executable := false; body := Wave three_channel_wave |}]>
              fs_ready) "/tmp/out.wav"
     = inr (tobytes [1; 2; 3]).
Proof.
  assert (Hf : <["/tmp/out.wav" := {| executable := false; body := Wave three_channel_wave |}]>
                 fs_ready !! "/tmp/out.wav"
               = Some {| executable := false; body := Wave three_channel_wave |})
    by apply lookup_insert_eq.
  assert (Hch : getnchannels three_channel_wave <> 2%nat) by discriminate.
  assert (He : Nat.even (length (readframes three_channel_wave
                                   (getnframes three_channel_wave))) = true)
    by reflexivity.
  pose proof (unsupported_format_passes_through _ _ _ three_channel_wave Hf eq_refl Hch He)
    as Hread.
  split; [exact Hf|]. split; [exact He|]. exact Hread.
Defined.

(** ** The call as a whole *)

Section Run.
Variable mktemp : gmap string file -> option string.
Variable engine : command -> gmap string file -> gmap string file * Z.

Lemma generate_effects self text out fs e :
  e ∈ effects (_generate engine self text out fs) -> exists cmd, e = Spawn cmd.
Proof.
  unfold _generate. destruct (fs !! piper_path self) as [bin|]; cbn [effects].
  - destruct (executable bin); cbn [effects].
    + destruct (engine _ fs) as [fs' rc]. cbn [effects].
      intros ->%list_elem_of_singleton. eauto.
    + by intros ?%elem_of_nil.
  - by intros ?%elem_of_nil.
Qed.

Lemma try_block_effects self text tmp c fs e :
  e ∈ (try_block engine self text tmp c fs).1.2 -> exists cmd, e = Spawn cmd.
Proof.
  unfold try_block. intros H. apply (generate_effects self text tmp fs).
  destruct c; [| exact H |];
    destruct (raised (_generate engine self text tmp fs)); exact H.
Qed.

(** What [emit_audio] and its consumer leave behind once a temporary file
    was made: it is the only one made, and it is gone unless the call was
    cancelled while the process ran. *)
Lemma emit_audio_cleans_up self text c fs tmp :
  mktemp fs = Some tmp ->
  let r := emit_audio_and_push mktemp engine self text c fs in
  (c <> CancelledInGenerate -> fs_after r !! tmp = None)
  /\ (forall p, CreateTemp p ∈ effects r -> p = tmp).
Proof.
  intros Hmk r. subst r. unfold emit_audio_and_push. rewrite Hmk.
  pose proof (try_block_effects self text tmp c
                (<[tmp := {| executable := false; body := NotWave |}]> fs)) as Heff.
  destruct (try_block _ _ _ _ _ _) as [[fs1 eff] r]. cbn [fst snd] in Heff.
  unfold finally_unlink.
  assert (Hin : forall p tail, (forall e, e ∈ tail -> forall q, e <> CreateTemp q) ->
                 CreateTemp p ∈ CreateTemp tmp :: eff ++ tail -> p = tmp).
  { intros p tail Htail [Heq | [Hin | Hin]%elem_of_app]%elem_of_cons.
    - by injection Heq.
    - destruct (Heff _ Hin) as [cmd E]. discriminate E.
    - by destruct (Htail _ Hin p). }
  assert (Hgone : c <> CancelledInGenerate ->
            process_left_running engine self text tmp c (delete tmp fs1) !! tmp = None).
  { intros Hc. destruct c; [|done|]; apply lookup_delete_eq. }
  destruct r as [e|audio]; cbn [fs_after effects].
  - split; [exact Hgone|]. intros p. apply Hin.
    intros e0 ->%list_elem_of_singleton q. discriminate.
  - split; [exact Hgone|]. intros p. apply Hin.
    intros e0 [-> | ->%list_elem_of_singleton]%elem_of_cons q; discriminate.
Qed.

(** X26: unless the call is cancelled while the engine runs, a temporary
    file that the call made is not on the filesystem afterwards, whatever
    the engine does and whatever the files are: on success, when the engine
    exits non-zero or cannot be started, when the output cannot be decoded,
    and on cancellation while the output is read. *)
Theorem temporary_file_is_gone self text c fs p :
  c <> CancelledInGenerate ->
  CreateTemp p ∈ effects (_run mktemp engine self text c fs) ->
  fs_after (_run mktemp engine self text c fs) !! p = None.
Proof.
  intros Hc. unfold _run.
  destruct (negb (path_exists fs (piper_path self))); cbn [effects];
    [by intros ?%elem_of_nil|].
  destruct (negb (path_exists fs (model_path self))); cbn [effects fs_after];
    [by intros ?%elem_of_nil|].
  intros [Heq | Hin]%elem_of_cons; [discriminate Heq|].
  destruct (mktemp fs) as [tmp|] eqn:Hmk.
  - destruct (emit_audio_cleans_up self text c fs tmp Hmk) as [Hgone Honly].
    rewrite (Honly p Hin). by apply Hgone.
  - unfold emit_audio_and_push in Hin. rewrite Hmk in Hin. cbn [effects] in Hin.
    by apply elem_of_nil in Hin.
Qed.

(** C4 (as amended): when the binary path or the model path does not
    exist, the call fails with [FileNotFoundError], the message ends in a
    path that is one of the two and is missing, and nothing has happened
    before: no effect at all (no temporary file, no process) and the files
    are as they were. *)
Theorem missing_path_fails_before_any_effect self text c fs :
  path_exists fs (piper_path self) = false \/ path_exists fs (model_path self) = false ->
  exists label p,
    (p = piper_path self \/ p = model_path self)
    /\ path_exists fs p = false
    /\ _run mktemp engine self text c fs
       = Result fs [] (Some (FileNotFoundError (String.append label p))).
Proof.
  intros H. unfold _run.
  destruct (path_exists fs (piper_path self)) eqn:Hb; cbn [negb].
  - destruct H as [H|H]; [discriminate H|]. rewrite H. cbn [negb].
    exists "Piper model not found: ", (model_path self). auto.
  - exists "Piper binary not found: ", (piper_path self). auto.
Qed.

End Run.

(** ** The exit paths, one call each *)

(** A successful call: the temporary file was made and is gone. *)
Lemma temporary_file_is_gone_witness :
  NotCancelled <> CancelledInGenerate
  /\ CreateTemp "/tmp/tmp0.wav"
       ∈ effects (_run mktemp0 (engine_writes stereo_wave) plugin0 "hi" NotCancelled fs_ready)
  /\ fs_after (_run mktemp0 (engine_writes stereo_wave) plugin0 "hi" NotCancelled fs_ready)
       !! "/tmp/tmp0.wav" = None.
Proof.
  assert (Hc : NotCancelled <> CancelledInGenerate) by discriminate.
  assert (H : CreateTemp "/tmp/tmp0.wav"
                ∈ effects (_run mktemp0 (engine_writes stereo_wave) plugin0 "hi"
                             NotCancelled fs_ready)).
  { vm_compute. apply list_elem_of_further. apply list_elem_of_here. }
  split; [exact Hc|]. split; [exact H|].
  exact (temporary_file_is_gone mktemp0 (engine_writes stereo_wave) plugin0 "hi"
           NotCancelled fs_ready "/tmp/tmp0.wav" Hc H).
Defined.

(** C1, the call on which the code leaves the claim: the caller cancels
    while the engine runs.  The call raises [CancelledError] and its
    [finally] block removes the temporary file, which is still empty; the
    engine, which nothing stops, then writes its output file, and the
    temporary file is on the filesystem after the call has raised. *)
Lemma cancelled_engine_writes_after_cleanup :
  fs_ready !! "/tmp/tmp0.wav" = None
  /\ raised (_run mktemp0 (engine_writes stereo_wave) plugin0 "hi" CancelledInGenerate
               fs_ready)
     = Some CancelledError
  /\ effects (_run mktemp0 (engine_writes stereo_wave) plugin0 "hi" CancelledInGenerate
                fs_ready)
     = [Initialize 22050 1;
        CreateTemp "/tmp/tmp0.wav";
        Spawn {| argv0 := "/opt/piper"; arg_model := "/opt/voice.onnx";
                 arg_length_scale := 1; arg_output_file := "/tmp/tmp0.wav";
                 stdin := "hi" |};
        Unlink "/tmp/tmp0.wav"]
  /\ fs_after (_run mktemp0 (engine_writes stereo_wave) plugin0 "hi" CancelledInGenerate
                 fs_ready) !! "/tmp/tmp0.wav"
     = Some {| executable := false; body := Wave stereo_wave |}.
Proof. vm_compute. repeat split; reflexivity. Qed.

(** What each exit path raises: nothing on success, [CalledProcessError] on
    exit code 1, [PermissionError] when the binary cannot be started, the
    decode error when the engine wrote no container, [CancelledError] at
    either [await]. *)
Example what_each_exit_path_raises :
  raised (_run mktemp0 (engine_writes stereo_wave) plugin0 "hi" NotCancelled fs_ready) = None
  /\ raised (_run mktemp0 (engine_exits 1) plugin0 "hi" NotCancelled fs_ready)
     = Some (CalledProcessError 1)
  /\ raised (_run mktemp0 (engine_exits 0) plugin0 "hi" NotCancelled fs_not_executable)
     = Some (PermissionError "/opt/piper")
  /\ raised (_run mktemp0 (engine_exits 0) plugin0 "hi" NotCancelled fs_ready)
     = Some WaveError
  /\ raised (_run mktemp0 (engine_writes stereo_wave) plugin0 "hi" CancelledInGenerate fs_ready)
     = Some CancelledError
  /\ raised (_run mktemp0 (engine_writes stereo_wave) plugin0 "hi" CancelledInRead fs_ready)
     = Some CancelledError.
Proof. vm_compute. repeat split; reflexivity. Qed.

(** On success the one chunk pushed is the downmixed audio, between the
    start of the engine and the removal of the file. *)
Example effects_of_a_successful_call :
  effects (_run mktemp0 (engine_writes stereo_wave) plugin0 "hi" NotCancelled fs_ready)
  = [Initialize 22050 1;
     CreateTemp "/tmp/tmp0.wav";
     Spawn {| argv0 := "/opt/piper"; arg_model := "/opt/voice.onnx";
              arg_length_scale := 1; arg_output_file := "/tmp/tmp0.wav";
              stdin := "hi" |};
     Push (tobytes [150; 0]);
     Unlink "/tmp/tmp0.wav"].
Proof. vm_compute. reflexivity. Qed.

(** The binary is missing. *)
Lemma missing_path_fails_before_any_effect_witness :
  path_exists fs_no_binary (piper_path plugin0) = false
  /\ exists label p,
       (p = piper_path plugin0 \/ p = model_path plugin0)
       /\ path_exists fs_no_binary p = false
       /\ _run mktemp0 (engine_writes stereo_wave) plugin0 "hi" NotCancelled fs_no_binary
          = Result fs_no_binary [] (Some (FileNotFoundError (String.append label p))).
Proof.
  assert (H : path_exists fs_no_binary (piper_path plugin0) = false) by reflexivity.
  split; [exact H|].
  exact (missing_path_fails_before_any_effect mktemp0 (engine_writes stereo_wave)
           plugin0 "hi" NotCancelled fs_no_binary (or_introl H)).
Defined.

(** The error names the binary, and nothing else happened. *)
Example missing_binary_is_named :
  _run mktemp0 (engine_writes stereo_wave) plugin0 "hi" NotCancelled fs_no_binary
  = Result fs_no_binary [] (Some (FileNotFoundError "Piper binary not found: /opt/piper")).
Proof. reflexivity. Qed.

(** C4 as first stated fails: a binary that is there without the execute
    permission passes the two checks; the call makes and removes a
    temporary file and fails with [PermissionError] when the process is
    started, not with [FileNotFoundError]. *)
Lemma binary_not_executable_fails_late :
  path_exists fs_not_executable (piper_path plugin0) = true
  /\ path_exists fs_not_executable (model_path plugin0) = true
  /\ (fs_not_executable !! piper_path plugin0) = Some plain_file
  /\ executable plain_file = false
  /\ raised (_run mktemp0 (engine_writes stereo_wave) plugin0 "hi" NotCancelled
               fs_not_executable)
     = Some (PermissionError "/opt/piper")
  /\ effects (_run mktemp0 (engine_writes stereo_wave) plugin0 "hi" NotCancelled
                fs_not_executable)
     = [Initialize 22050 1; CreateTemp "/tmp/tmp0.wav"; Unlink "/tmp/tmp0.wav"].
Proof. vm_compute. repeat split; reflexivity. Qed.

(** C5 as first stated fails: a container of three channels, and one of
    8-bit samples, are decoded and pushed; the call raises nothing. *)
Lemma three_channels_are_pushed :
  getnchannels three_channel_wave = 3%nat
  /\ raised (_run mktemp0 (engine_writes three_channel_wave) plugin0 "hi" NotCancelled fs_ready)
     = None
  /\ effects (_run mktemp0 (engine_writes three_channel_wave) plugin0 "hi" NotCancelled fs_ready)
     = [Initialize 22050 1;
        CreateTemp "/tmp/tmp0.wav";
        Spawn {| argv0 := "/opt/piper"; arg_model := "/opt/voice.onnx";
                 arg_length_scale := 1; arg_output_file := "/tmp/tmp0.wav";
                 stdin := "hi" |};
        Push (tobytes [1; 2; 3]);
        Unlink "/tmp/tmp0.wav"]
  /\ getsampwidth eight_bit_wave = 1%nat
  /\ raised (_run mktemp0 (engine_writes eight_bit_wave) plugin0 "hi" NotCancelled fs_ready)
     = None
  /\ _read (<["/tmp/out.wav" := {| executable := false; body := Wave eight_bit_wave |}]>
              fs_ready) "/tmp/out.wav"
     = inr (data_chunk eight_bit_wave).
Proof. vm_compute. repeat split; reflexivity. Qed.

(** ** Every chunk of whole stereo frames is the bytes of in-range frames *)

Lemma int16_of_bytes_in_range lo hi : is_int16 (int16_of_bytes lo hi).
Proof.
  unfold int16_of_bytes, is_int16.
  pose proof (byte_to_Z_range lo). pose proof (byte_to_Z_range hi).
  cbv zeta. destruct (Z.ltb_spec (byte_to_Z lo + 256 * byte_to_Z hi) 32768); lia.
Qed.

Lemma frombuffer_in_range buf audio :
  frombuffer_int16 buf = Some audio -> Forall is_int16 audio.
Proof.
  revert audio. induction buf as [| b | lo hi rest IH] using two_step_ind;
    intros audio; cbn [frombuffer_int16].
  - intros [= <-]. constructor.
  - discriminate.
  - destruct (frombuffer_int16 rest) as [a|]; [|discriminate].
    intros [= <-]. constructor; [apply int16_of_bytes_in_range | by apply IH].
Qed.

Lemma reshape2_even audio :
  Nat.even (length audio) = true -> is_Some (reshape2 audio).
Proof.
  induction audio as [| z | l r rest IH] using two_step_ind; cbn [reshape2].
  - eauto.
  - discriminate.
  - intros H. destruct (IH H) as [rows ->]. eauto.
Qed.

Lemma interleave_reshape2 audio rows :
  reshape2 audio = Some rows -> interleave rows = audio.
Proof.
  revert rows. induction audio as [| z | l r rest IH] using two_step_ind;
    intros rows; cbn [reshape2].
  - by intros [= <-].
  - discriminate.
  - destruct (reshape2 rest) as [rs|]; [|discriminate].
    intros [= <-]. unfold interleave in *. cbn [flat_map app fst snd].
    by rewrite (IH rs eq_refl).
Qed.

Lemma rows_in_range rows :
  Forall is_int16 (interleave rows) -> Forall frame_in_range rows.
Proof.
  induction rows as [|[l r] rows IH]; [constructor|].
  unfold interleave in *. cbn [flat_map app fst snd].
  intros H. inversion H as [|? ? Hl H']; subst. inversion H' as [|? ? Hr H'']; subst.
  constructor; [by split | by apply IH].
Qed.

Lemma whole_stereo_chunk buf n :
  length buf = (4 * n)%nat ->
  exists rows, Forall frame_in_range rows /\ buf = tobytes (interleave rows).
Proof.
  intros Hlen.
  assert (He : Nat.even (length buf) = true).
  { rewrite Hlen. replace (4 * n)%nat with (2 * (2 * n))%nat by lia. apply Nat.even_even. }
  destruct (frombuffer_even buf He) as [audio Ha].
  pose proof (tobytes_frombuffer _ _ Ha) as Hbytes.
  assert (He2 : Nat.even (length audio) = true).
  { pose proof (length_tobytes audio) as L. rewrite Hbytes, Hlen in L.
    replace (length audio) with (2 * n)%nat by lia. apply Nat.even_even. }
  destruct (reshape2_even audio He2) as [rows Hr].
  pose proof (interleave_reshape2 _ _ Hr) as Hi.
  exists rows. split.
  - apply rows_in_range. rewrite Hi. by apply (frombuffer_in_range buf).
  - by rewrite Hi.
Qed.
End PiperProps.

(* ===================================================================== *)
(** * Further properties                                                  *)
(* ===================================================================== *)

Module TrackerExtra.
Import Tracker TrackerProps.

Lemma run_cons self ev evs :
  run self (ev :: evs)
  = ((run (tracker (on_metrics_collected self ev)) evs).1,
     on_metrics_collected self ev :: (run (tracker (on_metrics_collected self ev)) evs).2).
Proof. cbn [run]. by destruct (run _ evs). Qed.

Lemma call_other_key self ev k' :
  speech_id (getattr_metrics ev) <> Some k' ->
  parts (tracker (on_metrics_collected self ev)) !! k' = parts self !! k'.
Proof.
  intros Hne.
  destruct (speech_id (getattr_metrics ev)) as [k|] eqn:Hk;
    [|by rewrite (keyless_call self ev Hk)].
  destruct (truthy k) eqn:Ht; [|by rewrite (falsy_call self ev k Hk Ht)].
  assert (k <> k') by congruence.
  rewrite (keyed_call self ev k Hk Ht). cbv zeta.
  destruct (all_present _); cbn [tracker parts].
  - by rewrite lookup_delete_ne.
  - by rewrite lookup_insert_ne.
Qed.

(** X1: events that do not carry key [k'] leave the record of [k'] as it
    is, however many of them arrive: the keys of a tracker do not disturb
    one another. *)
Theorem other_keys_untouched self evs k' :
  Forall (fun ev => speech_id (getattr_metrics ev) <> Some k') evs ->
  parts (fst (run self evs)) !! k' = parts self !! k'.
Proof.
  intros H. revert self. induction H as [|ev evs Hev _ IH]; intros self; [reflexivity|].
  rewrite run_cons. cbn [fst]. rewrite IH. by apply call_other_key.
Qed.

Lemma call_keeps_incomplete self ev :
  (forall k pm, parts self !! k = Some pm -> all_present pm = false) ->
  forall k pm, parts (tracker (on_metrics_collected self ev)) !! k = Some pm ->
               all_present pm = false.
Proof.
  intros Hinv k pm.
  destruct (speech_id (getattr_metrics ev)) as [k0|] eqn:Hk;
    [|rewrite (keyless_call self ev Hk); apply Hinv].
  destruct (truthy k0) eqn:Ht; [|rewrite (falsy_call self ev k0 Hk Ht); apply Hinv].
  rewrite (keyed_call self ev k0 Hk Ht). cbv zeta.
  destruct (all_present (updated self (getattr_metrics ev) k0)) eqn:Hall; cbn [tracker parts].
  - intros [_ H]%lookup_delete_Some. by apply (Hinv k).
  - intros [[_ <-] | [_ H]]%lookup_insert_Some; [exact Hall | by apply (Hinv k)].
Qed.

Lemma run_keeps_incomplete self evs :
  (forall k pm, parts self !! k = Some pm -> all_present pm = false) ->
  forall k pm, parts (fst (run self evs)) !! k = Some pm -> all_present pm = false.
Proof.
  revert self. induction evs as [|ev evs IH]; intros self Hinv; [exact Hinv|].
  rewrite run_cons. cbn [fst]. apply IH. by apply call_keeps_incomplete.
Qed.

(** X2: in a tracker that started empty, no stored record ever holds all
    three parts: a record that becomes complete leaves the table in the same
    call. *)
Theorem no_complete_record_is_stored room evs k pm :
  parts (fst (run (init room) evs)) !! k = Some pm -> all_present pm = false.
Proof.
  apply run_keeps_incomplete. intros k0 pm0. cbn [init parts].
  by rewrite lookup_empty.
Qed.

Lemma call_keeps_truthy self ev :
  (forall k, is_Some (parts self !! k) -> truthy k = true) ->
  forall k, is_Some (parts (tracker (on_metrics_collected self ev)) !! k) -> truthy k = true.
Proof.
  intros Hinv k.
  destruct (speech_id (getattr_metrics ev)) as [k0|] eqn:Hk;
    [|rewrite (keyless_call self ev Hk); apply Hinv].
  destruct (truthy k0) eqn:Ht; [|rewrite (falsy_call self ev k0 Hk Ht); apply Hinv].
  destruct (decide (k0 = k)) as [<-|Hne]; [done|].
  rewrite (call_other_key self ev k) by congruence. apply Hinv.
Qed.

(** X3: in a tracker that started empty, every key in the table is truthy:
    no record is ever kept under the empty string or under 0. *)
Theorem stored_keys_are_truthy room evs k :
  is_Some (parts (fst (run (init room) evs)) !! k) -> truthy k = true.
Proof.
  assert (H : forall self, (forall k, is_Some (parts self !! k) -> truthy k = true) ->
              forall k, is_Some (parts (fst (run self evs)) !! k) -> truthy k = true).
  { induction evs as [|ev evs IH]; intros self Hinv; [exact Hinv|].
    rewrite run_cons. cbn [fst]. apply IH. by apply call_keeps_truthy. }
  apply H. intros k0. cbn [init parts]. rewrite lookup_empty. by intros [? ?].
Qed.

(** One call on a keyed event of a single part. *)
Lemma part_event_call self p x k :
  truthy k = true ->
  let pm := <[part_name p := (x * 1000)%float]> (default ∅ (parts self !! k)) in
  on_metrics_collected self (part_event p x (Some k)) =
    if all_present pm then
      Outcome {| room_name := room_name self; parts := delete k (parts self) |}
              ([line (room_name self) p (x * 1000)%float]
                 ++ [LogTotal (room_name self) k (item pm "stt") (item pm "llm")
                              (item pm "tts") (total_ms pm)]) None
    else Outcome {| room_name := room_name self; parts := <[k := pm]> (parts self) |}
                 [line (room_name self) p (x * 1000)%float] None.
Proof.
  intros Ht pm.
  rewrite (keyed_call self (part_event p x (Some k)) k) by (by destruct p).
  by destruct p.
Qed.

(** X4: the three parts of a key may arrive in any order.  From a tracker
    without a record for the key, the first two calls log their latency
    line only, the third logs its line and the combined observation, and the
    total is always summed as stt + llm + tts, whatever the order of arrival;
    the tracker ends as it began. *)
Theorem any_arrival_order_same_total self k (sec : part -> float) p1 p2 p3 :
  truthy k = true ->
  parts self !! k = None ->
  NoDup [p1; p2; p3] ->
  let ms p := (sec p * 1000)%float in
  let evs := [part_event p1 (sec p1) (Some k); part_event p2 (sec p2) (Some k);
              part_event p3 (sec p3) (Some k)] in
  map logged (snd (run self evs))
  = [[line (room_name self) p1 (ms p1)];
     [line (room_name self) p2 (ms p2)];
     [line (room_name self) p3 (ms p3);
      LogTotal (room_name self) k (ms Stt) (ms Llm) (ms Tts) (ms Stt + ms Llm + ms Tts)%float]]
  /\ fst (run self evs) = self.
Proof.
  intros Ht Hnone Hnd ms evs. subst evs ms.
  assert (Hself : {| room_name := room_name self; parts := delete k (parts self) |} = self).
  { destruct self as [room tbl]. cbn [room_name parts] in *. by rewrite delete_id. }
  apply NoDup_cons in Hnd as [H1 Hnd]. apply NoDup_cons in Hnd as [H2 _].
  rewrite !run_cons. cbn [run fst snd map].
  rewrite (part_event_call self p1 _ k Ht). cbv zeta. rewrite Hnone. cbn [from_option id].
  destruct p1, p2, p3; try (exfalso; set_solver);
    cbn [part_name];
    (match goal with |- context [all_present ?m] =>
       let b := eval vm_compute in (all_present m) in
       change (all_present m) with b end); cbv iota; cbn [tracker logged];
    rewrite (part_event_call _ _ _ k Ht); cbv zeta; cbn [parts room_name];
    rewrite lookup_insert_eq; cbn [from_option id part_name];
    (match goal with |- context [all_present ?m] =>
       let b := eval vm_compute in (all_present m) in
       change (all_present m) with b end); cbv iota; cbn [tracker logged];
    rewrite (part_event_call _ _ _ k Ht); cbv zeta; cbn [parts room_name];
    rewrite lookup_insert_eq; cbn [from_option id part_name];
    (match goal with |- context [all_present ?m] =>
       let b := eval vm_compute in (all_present m) in
       change (all_present m) with b end); cbv iota; cbn [tracker logged parts room_name line app];
    rewrite !delete_insert_eq, Hself;
    (split; [|reflexivity]);
    unfold total_ms, item; by simplify_map_eq.
Qed.

(** One call keeps a pending record pending as long as its missing part
    does not arrive for its key. *)
Lemma call_keeps_pending self ev k q :
  is_Some (parts self !! k) ->
  stored self k q = None ->
  (speech_id (getattr_metrics ev) = Some k -> carried (getattr_metrics ev) q = None) ->
  is_Some (parts (tracker (on_metrics_collected self ev)) !! k)
  /\ stored (tracker (on_metrics_collected self ev)) k q = None.
Proof.
  intros Hin Hq Hev.
  destruct (decide (speech_id (getattr_metrics ev) = Some k)) as [Hk|Hne].
  - specialize (Hev Hk).
    destruct (truthy k) eqn:Ht; [|by rewrite (falsy_call self ev k Hk Ht)].
    rewrite (keyed_call self ev k Hk Ht). cbv zeta.
    assert (Hl : latest self (getattr_metrics ev) k q = None)
      by (unfold latest; by rewrite Hev).
    destruct (all_present (updated self (getattr_metrics ev) k)) eqn:Hall.
    + apply all_present_latest in Hall as (Hs & Hll & Htt).
      destruct q; rewrite Hl in *; by destruct Hs + destruct Hll + destruct Htt.
    + cbn [tracker]. rewrite stored_insert, updated_lookup. cbn [parts].
      rewrite lookup_insert_eq. eauto.
  - unfold stored in *. by rewrite (call_other_key self ev k Hne).
Qed.

(** X5: a record that waits for a part stays in the table, still without
    that part, for as long as no event brings the part for its key: the
    tracker never expires a record. *)
Theorem pending_record_stays self evs k q :
  is_Some (parts self !! k) ->
  stored self k q = None ->
  Forall (fun ev => speech_id (getattr_metrics ev) = Some k ->
                    carried (getattr_metrics ev) q = None) evs ->
  is_Some (parts (fst (run self evs)) !! k)
  /\ stored (fst (run self evs)) k q = None.
Proof.
  intros Hin Hq H. revert self Hin Hq.
  induction H as [|ev evs Hev _ IH]; intros self Hin Hq; [by split|].
  rewrite run_cons. cbn [fst].
  destruct (call_keeps_pending self ev k q Hin Hq Hev) as [Hin' Hq'].
  by apply IH.
Qed.

(** X6: a record leaves the table only in a call on an event of its own
    key, and that call ends its log with the combined observation of that
    key, whose total is the sum of its three components: no record is
    dropped without its total being logged. *)
Theorem record_leaves_only_with_total self ev k :
  is_Some (parts self !! k) ->
  parts (tracker (on_metrics_collected self ev)) !! k = None ->
  speech_id (getattr_metrics ev) = Some k
  /\ exists stt llm tts,
       last (logged (on_metrics_collected self ev))
       = Some (LogTotal (room_name self) k stt llm tts (stt + llm + tts)%float).
Proof.
  intros Hin Hgone.
  destruct (decide (speech_id (getattr_metrics ev) = Some k)) as [Hk|Hne].
  - split; [exact Hk|].
    destruct (truthy k) eqn:Ht.
    + revert Hgone. rewrite (keyed_call self ev k Hk Ht). cbv zeta.
      destruct (all_present (updated self (getattr_metrics ev) k)) eqn:Hall.
      * intros _. cbn [logged]. rewrite last_snoc. unfold total_ms. eauto.
      * cbn [tracker parts]. by rewrite lookup_insert_eq.
    + rewrite (falsy_call self ev k Hk Ht) in Hgone. cbn [tracker] in Hgone.
      rewrite Hgone in Hin. by destruct Hin.
  - rewrite (call_other_key self ev k Hne) in Hgone. rewrite Hgone in Hin. by destruct Hin.
Qed.

Lemma other_keys_untouched_witness :
  Forall (fun ev => speech_id (getattr_metrics ev) <> Some key_a)
         [llm_event 0.2 (Some key_b); tts_event 0.05 (Some key_b); eou_event 0.3 None]
  /\ parts (fst (run two_keys_pending
                   [llm_event 0.2 (Some key_b); tts_event 0.05 (Some key_b);
                    eou_event 0.3 None])) !! key_a
     = parts two_keys_pending !! key_a
  /\ stored two_keys_pending key_a Stt = Some 100%float.
Proof.
  assert (H : Forall (fun ev => speech_id (getattr_metrics ev) <> Some key_a)
                [llm_event 0.2 (Some key_b); tts_event 0.05 (Some key_b);
                 eou_event 0.3 None])
    by (repeat constructor; discriminate).
  split; [exact H|]. split; [exact (other_keys_untouched two_keys_pending _ key_a H)|].
  vm_compute. reflexivity.
Defined.

Lemma no_complete_record_is_stored_witness :
  parts (fst (run (init "room") [eou_event 0.1 (Some key_a); llm_event 0.2 (Some key_a)]))
    !! key_a = Some (<["llm" := 200%float]> (<["stt" := 100%float]> ∅))
  /\ all_present (<["llm" := 200%float]> (<["stt" := 100%float]> ∅)) = false.
Proof.
  assert (H : parts (fst (run (init "room")
                            [eou_event 0.1 (Some key_a); llm_event 0.2 (Some key_a)]))
                !! key_a = Some (<["llm" := 200%float]> (<["stt" := 100%float]> ∅)))
    by (vm_compute; reflexivity).
  split; [exact H|]. exact (no_complete_record_is_stored "room" _ key_a _ H).
Defined.

Lemma stored_keys_are_truthy_witness :
  is_Some (parts (fst (run (init "room")
                         [eou_event 0.1 (Some (KStr "")); llm_event 0.2 (Some key_b)]))
           !! key_b)
  /\ truthy key_b = true
  /\ parts (fst (run (init "room")
                   [eou_event 0.1 (Some (KStr "")); llm_event 0.2 (Some key_b)]))
       !! KStr "" = None.
Proof.
  assert (H : is_Some (parts (fst (run (init "room")
                                     [eou_event 0.1 (Some (KStr ""));
                                      llm_event 0.2 (Some key_b)])) !! key_b))
    by (vm_compute; eauto).
  split; [exact H|]. split; [exact (stored_keys_are_truthy "room" _ key_b H)|].
  vm_compute. reflexivity.
Defined.

Lemma any_arrival_order_same_total_witness :
  truthy key_a = true
  /\ parts (init "room") !! key_a = None
  /\ NoDup [Tts; Stt; Llm]
  /\ map logged (snd (run (init "room")
                        [tts_event 0.05 (Some key_a); eou_event 0.1 (Some key_a);
                         llm_event 0.2 (Some key_a)]))
     = [[LogTts "room" 50]; [LogStt "room" 100];
        [LogLlm "room" 200; LogTotal "room" key_a 100 200 50 350]]
  /\ fst (run (init "room")
            [tts_event 0.05 (Some key_a); eou_event 0.1 (Some key_a);
             llm_event 0.2 (Some key_a)])
     = init "room".
Proof.
  assert (H1 : truthy key_a = true) by reflexivity.
  assert (H2 : parts (init "room") !! key_a = None) by reflexivity.
  assert (H3 : NoDup [Tts; Stt; Llm]).
  { repeat (apply NoDup_cons; split;
              [intros Hin;
               repeat (apply elem_of_cons in Hin as [Hin | Hin]; [discriminate Hin|]);
               by apply elem_of_nil in Hin|]).
    apply NoDup_nil_2. }
  destruct (any_arrival_order_same_total (init "room") key_a sample_seconds Tts Stt Llm
              H1 H2 H3) as [Hlog Hfst].
  split; [exact H1|]. split; [exact H2|]. split; [exact H3|].
  split; [exact Hlog | exact Hfst].
Defined.

Lemma pending_record_stays_witness :
  is_Some (parts two_keys_pending !! key_a)
  /\ stored two_keys_pending key_a Tts = None
  /\ Forall (fun ev => speech_id (getattr_metrics ev) = Some key_a ->
                       carried (getattr_metrics ev) Tts = None)
            [llm_event 0.2 (Some key_a); tts_event 0.05 (Some key_b);
             eou_event 0.3 (Some key_a)]
  /\ is_Some (parts (fst (run two_keys_pending
                            [llm_event 0.2 (Some key_a); tts_event 0.05 (Some key_b);
                             eou_event 0.3 (Some key_a)])) !! key_a)
  /\ stored (fst (run two_keys_pending
                    [llm_event 0.2 (Some key_a); tts_event 0.05 (Some key_b);
                     eou_event 0.3 (Some key_a)])) key_a Tts = None.
Proof.
  assert (H1 : is_Some (parts two_keys_pending !! key_a)) by (vm_compute; eauto).
  assert (H2 : stored two_keys_pending key_a Tts = None) by (vm_compute; reflexivity).
  assert (H3 : Forall (fun ev => speech_id (getattr_metrics ev) = Some key_a ->
                                 carried (getattr_metrics ev) Tts = None)
                 [llm_event 0.2 (Some key_a); tts_event 0.05 (Some key_b);
                  eou_event 0.3 (Some key_a)]).
  { repeat constructor; try reflexivity. discriminate. }
  destruct (pending_record_stays two_keys_pending _ key_a Tts H1 H2 H3) as [Hin Hq].
  repeat split; assumption.
Defined.

Lemma record_leaves_only_with_total_witness :
  is_Some (parts two_parts_seen !! key_a)
  /\ parts (tracker (on_metrics_collected two_parts_seen (tts_event 0.05 (Some key_a))))
       !! key_a = None
  /\ speech_id (getattr_metrics (tts_event 0.05 (Some key_a))) = Some key_a
  /\ exists stt llm tts,
       last (logged (on_metrics_collected two_parts_seen (tts_event 0.05 (Some key_a))))
       = Some (LogTotal (room_name two_parts_seen) key_a stt llm tts (stt + llm + tts)%float).
Proof.
  assert (H1 : is_Some (parts two_parts_seen !! key_a)) by (vm_compute; eauto).
  assert (H2 : parts (tracker (on_metrics_collected two_parts_seen
                                 (tts_event 0.05 (Some key_a)))) !! key_a = None)
    by (vm_compute; reflexivity).
  split; [exact H1|]. split; [exact H2|].
  exact (record_leaves_only_with_total two_parts_seen _ key_a H1 H2).
Defined.
End TrackerExtra.

Module PiperExtra.
Import Piper PiperProps.

Lemma frombuffer_length buf audio :
  frombuffer_int16 buf = Some audio -> length buf = (2 * length audio)%nat.
Proof.
  intros H. rewrite <- (tobytes_frombuffer _ _ H). apply length_tobytes.
Qed.

Lemma reshape2_length audio rows :
  reshape2 audio = Some rows -> length audio = (2 * length rows)%nat.
Proof.
  intros H. rewrite <- (interleave_reshape2 _ _ H). apply length_interleave.
Qed.

Lemma reshape2_odd audio :
  Nat.even (length audio) = false -> reshape2 audio = None.
Proof.
  induction audio as [| z | l r rest IH] using two_step_ind; cbn [reshape2].
  - discriminate.
  - reflexivity.
  - intros H. by rewrite (IH H).
Qed.

Lemma even_double_iff n m :
  n = (2 * m)%nat -> Nat.even m = Nat.eqb (n mod 4) 0.
Proof.
  intros ->. destruct (Nat.even m) eqn:E.
  - apply Nat.even_spec in E as [j ->]. symmetry. apply Nat.eqb_eq.
    replace (2 * (2 * j))%nat with (j * 4)%nat by lia. apply Nat.Div0.mod_mul.
  - symmetry. apply Nat.eqb_neq. intros H.
    assert (Nat.even m = true); [|congruence].
    apply Nat.even_spec. exists ((2 * m) / 4)%nat.
    pose proof (Nat.div_mod_eq (2 * m) 4). lia.
Qed.

(** X7: [_read] decodes a container exactly when its frame bytes are an
    even number and, with two channels, a multiple of four; otherwise the
    exception is NumPy's [ValueError], and no other exception comes out of
    the decoding. *)
Theorem read_body_decodes_iff_decodable w :
  match read_body w with
  | inr out => decodable w = true
  | inl e => e = ValueError /\ decodable w = false
  end.
Proof.
  unfold read_body, decodable. fold (frame_bytes w).
  destruct (Nat.even (length (frame_bytes w))) eqn:He.
  - destruct (frombuffer_even _ He) as [audio Ha]. rewrite Ha.
    pose proof (frombuffer_length _ _ Ha) as Hlen.
    rewrite <- (even_double_iff _ _ Hlen).
    destruct (Nat.eqb (getnchannels w) 2); cbn [negb andb orb]; [|reflexivity].
    destruct (Nat.even (length audio)) eqn:He2.
    + by destruct (reshape2_even _ He2) as [rows ->].
    + by rewrite (reshape2_odd _ He2).
  - rewrite (frombuffer_odd _ He). split; reflexivity.
Qed.

(** X8: the audio [_read] returns has half the bytes of the frames for a
    container of two channels (one sample per frame pair) and as many bytes
    as the frames otherwise. *)
Theorem read_body_output_length w out :
  read_body w = inr out ->
  length out = if Nat.eqb (getnchannels w) 2
               then (length (frame_bytes w) / 2)%nat
               else length (frame_bytes w).
Proof.
  unfold read_body. fold (frame_bytes w).
  destruct (frombuffer_int16 (frame_bytes w)) as [audio|] eqn:Ha; [|discriminate].
  pose proof (frombuffer_length _ _ Ha) as Hlen.
  destruct (Nat.eqb (getnchannels w) 2).
  - destruct (reshape2 audio) as [rows|] eqn:Hr; [|discriminate].
    intros [= <-]. unfold mean_axis1. rewrite length_tobytes, !length_map.
    pose proof (reshape2_length _ _ Hr) as Hl2. rewrite Hlen, Hl2.
    replace (2 * (2 * length rows))%nat with ((2 * length rows) * 2)%nat by lia.
    rewrite Nat.div_mul by discriminate. reflexivity.
  - intros [= <-]. by rewrite length_tobytes.
Qed.

Lemma truncated_average_same s : truncated_average (s, s) = s.
Proof.
  unfold truncated_average. cbn [fst snd].
  replace (s + s) with (s * 2) by lia. apply Z.quot_mul. discriminate.
Qed.

(** X9: a 16-bit stereo container that carries the same sample on both
    channels is downmixed to exactly that signal. *)
Theorem dual_mono_is_kept fs wav_file f w samples :
  fs !! wav_file = Some f ->
  body f = Wave w ->
  getnchannels w = 2%nat ->
  getsampwidth w = 2%nat ->
  data_chunk w = tobytes (interleave (map (fun s => (s, s)) samples)) ->
  Forall is_int16 samples ->
  _read fs wav_file = inr (tobytes samples).
Proof.
  intros Hf Hb Hch Hsw Hdata Hrange. unfold _read. rewrite Hf, Hb.
  rewrite (read_body_stereo w _ Hch Hsw Hdata).
  - rewrite map_map. f_equal. f_equal. rewrite <- (map_id samples) at 2.
    apply map_ext. intros s. apply truncated_average_same.
  - apply Forall_map. eapply Forall_impl; [exact Hrange|]. intros s Hs. by split.
Qed.

(** X10: every downmixed sample lies between the two channel samples it
    comes from, so the averaging never overflows or clips, whatever the
    samples are. *)
Theorem downmix_between_channels rows :
  Forall2 (fun row z => Z.min (fst row) (snd row) <= z <= Z.max (fst row) (snd row))
          rows (map astype_int16 (mean_axis1 rows)).
Proof.
  rewrite downmix_is_truncated_average.
  induction rows as [|[l r] rows IH]; [constructor|].
  cbn [map]. constructor; [|exact IH].
  unfold truncated_average. cbn [fst snd].
  Z.to_euclidean_division_equations. lia.
Qed.

Section RunExtra.
Variable mktemp : gmap string file -> option string.
Variable engine : command -> gmap string file -> gmap string file * Z.

(** The effects of a call that got past the checks and made its temporary
    file, in order. *)
Lemma run_effects_shape self text c fs tmp :
  path_exists fs (piper_path self) = true ->
  path_exists fs (model_path self) = true ->
  mktemp fs = Some tmp ->
  let r := _run mktemp engine self text c fs in
  let g := _generate engine self text tmp (<[tmp := empty_file]> fs) in
  (c <> CancelledInGenerate -> fs_after r = delete tmp (fs_after g))
  /\ exists pushed,
       effects r = Initialize (_sample_rate self) 1 :: CreateTemp tmp
                     :: effects g ++ pushed ++ [Unlink tmp]
       /\ ((pushed = [] /\ is_Some (raised r))
           \/ (exists audio, pushed = [Push audio] /\ raised r = None
                             /\ c = NotCancelled /\ raised g = None
                             /\ _read (fs_after g) tmp = inr audio)).
Proof.
  intros Hb Hm Hmk r g. subst r. unfold _run, emit_audio_and_push.
  rewrite Hb, Hm, Hmk. cbn [negb]. fold empty_file. unfold try_block. fold g.
  unfold finally_unlink.
  destruct c; cbn [fs_after effects raised].
  - destruct (raised g) as [e|] eqn:Hg; cbn [fs_after effects raised].
    + split; [reflexivity|]. exists []. split; [reflexivity|]. left. eauto.
    + destruct (_read (fs_after g) tmp) as [e|audio] eqn:Hr; cbn [fs_after effects raised].
      * split; [reflexivity|]. exists []. split; [reflexivity|]. left. eauto.
      * split; [reflexivity|]. exists [Push audio]. split; [reflexivity|].
        right. exists audio. auto.
  - split; [done|]. exists []. split; [reflexivity|]. left. eauto.
  - destruct (raised g) as [e|] eqn:Hg; cbn [fs_after effects raised];
      (split; [reflexivity|]); exists []; (split; [reflexivity|]); left; eauto.
Qed.

Lemma generate_effects_cases self text out fs :
  effects (_generate engine self text out fs) = []
  \/ effects (_generate engine self text out fs) = [Spawn (piper_command self text out)].
Proof.
  unfold _generate. fold (piper_command self text out).
  destruct (fs !! piper_path self) as [bin|]; [|by left].
  destruct (executable bin); [|by left].
  destruct (engine _ fs). by right.
Qed.

(** The effects of any call: none, or [Initialize] alone, or the shape
    above. *)
Lemma run_effects_cases self text c fs :
  let r := _run mktemp engine self text c fs in
  (effects r = [] /\ is_Some (raised r))
  \/ (effects r = [Initialize (_sample_rate self) 1] /\ is_Some (raised r))
  \/ exists tmp spawned pushed,
       effects r = Initialize (_sample_rate self) 1 :: CreateTemp tmp
                     :: spawned ++ pushed ++ [Unlink tmp]
       /\ (spawned = [] \/ spawned = [Spawn (piper_command self text tmp)])
       /\ ((pushed = [] /\ is_Some (raised r))
           \/ exists audio, pushed = [Push audio] /\ raised r = None).
Proof.
  intros r. subst r.
  destruct (path_exists fs (piper_path self)) eqn:Hb;
    [|left; unfold _run; rewrite Hb; cbn; eauto].
  destruct (path_exists fs (model_path self)) eqn:Hm;
    [|left; unfold _run; rewrite Hb, Hm; cbn; eauto].
  destruct (mktemp fs) as [tmp|] eqn:Hmk.
  - right. right.
    destruct (run_effects_shape self text c fs tmp Hb Hm Hmk) as (_ & pushed & He & Hp).
    exists tmp, (effects (_generate engine self text tmp (<[tmp := empty_file]> fs))), pushed.
    split; [exact He|]. split; [apply generate_effects_cases|].
    destruct Hp as [Hp | (audio & -> & Hr & _)]; [by left | right; eauto].
  - right. left. unfold _run, emit_audio_and_push. rewrite Hb, Hm, Hmk. cbn. eauto.
Qed.

Lemma one_chunk_iff_no_exception_aux self text c fs :
  length (filter is_push (effects (_run mktemp engine self text c fs)))
  = match raised (_run mktemp engine self text c fs) with
    | Some _ => 0%nat
    | None => 1%nat
    end.
Proof.
  destruct (run_effects_cases self text c fs)
    as [[-> [e ->]] | [[-> [e ->]] | (tmp & sp & pu & -> & Hsp & Hpu)]];
    [reflexivity | reflexivity |].
  destruct Hsp as [-> | ->], Hpu as [[-> [e ->]] | (audio & -> & ->)]; reflexivity.
Qed.

(** X11: a call pushes exactly one chunk of audio when it raises nothing,
    and none when it raises: the stream is single-shot. *)
Theorem one_chunk_iff_no_exception self text c fs :
  length (filter is_push (effects (_run mktemp engine self text c fs)))
  = match raised (_run mktemp engine self text c fs) with
    | Some _ => 0%nat
    | None => 1%nat
    end.
Proof.
  destruct (run_effects_cases self text c fs)
    as [[-> [e ->]] | [[-> [e ->]] | (tmp & sp & pu & -> & Hsp & Hpu)]];
    [reflexivity | reflexivity |].
  destruct Hsp as [-> | ->], Hpu as [[-> [e ->]] | (audio & -> & ->)]; reflexivity.
Qed.

(** X12: a process that a call starts is the plugin's binary with the
    plugin's model and speed and the call's text on standard input, its
    output file is the temporary file the call made, and it is the only
    process the call starts. *)
Theorem engine_is_told_the_temporary_file self text c fs cmd :
  Spawn cmd ∈ effects (_run mktemp engine self text c fs) ->
  cmd = piper_command self text (arg_output_file cmd)
  /\ CreateTemp (arg_output_file cmd) ∈ effects (_run mktemp engine self text c fs)
  /\ length (filter is_spawn (effects (_run mktemp engine self text c fs))) = 1%nat.
Proof.
  destruct (run_effects_cases self text c fs)
    as [[-> _] | [[-> _] | (tmp & sp & pu & -> & Hsp & Hpu)]].
  - by intros ?%elem_of_nil.
  - intros [=]%list_elem_of_singleton.
  - intros Hin.
    assert (Hpu' : pu = [] \/ exists audio, pu = [Push audio]).
    { destruct Hpu as [[-> _] | (audio & -> & _)]; eauto. }
    destruct Hsp as [-> | ->], Hpu' as [-> | [audio ->]]; cbn [app] in *;
      repeat (apply elem_of_cons in Hin as [Hin | Hin]; [try discriminate Hin|]);
      try (by apply elem_of_nil in Hin);
      injection Hin as ->; cbn [arg_output_file piper_command];
      (split; [reflexivity|]); (split; [|reflexivity]);
      apply list_elem_of_further, list_elem_of_here.
Qed.

(** X13: when a call made a temporary file, removing it is the last thing
    the call does, after the audio was pushed. *)
Theorem cleanup_is_the_last_effect self text c fs p :
  CreateTemp p ∈ effects (_run mktemp engine self text c fs) ->
  last (effects (_run mktemp engine self text c fs)) = Some (Unlink p).
Proof.
  destruct (run_effects_cases self text c fs)
    as [[-> _] | [[-> _] | (tmp & sp & pu & -> & Hsp & Hpu)]].
  - by intros ?%elem_of_nil.
  - intros [=]%list_elem_of_singleton.
  - intros Hin.
    assert (Hpu' : pu = [] \/ exists audio, pu = [Push audio]).
    { destruct Hpu as [[-> _] | (audio & -> & _)]; eauto. }
    assert (p = tmp) as ->.
    { destruct Hsp as [-> | ->], Hpu' as [-> | [audio ->]]; cbn [app] in *;
        repeat (apply elem_of_cons in Hin as [Hin | Hin]; [try discriminate Hin|]);
        try (by apply elem_of_nil in Hin); by injection Hin. }
    destruct Hsp as [-> | ->], Hpu' as [-> | [audio ->]]; reflexivity.
Qed.

(** X14: the output is announced once, first of all effects, with the
    plugin's configured sample rate and one channel, whatever the container
    the engine writes holds. *)
Theorem announced_as_mono_at_the_configured_rate self text c fs rate channels :
  Initialize rate channels ∈ effects (_run mktemp engine self text c fs) ->
  rate = _sample_rate self /\ channels = 1
  /\ head (effects (_run mktemp engine self text c fs)) = Some (Initialize rate channels).
Proof.
  destruct (run_effects_cases self text c fs)
    as [[-> _] | [[-> _] | (tmp & sp & pu & -> & Hsp & Hpu)]].
  - by intros ?%elem_of_nil.
  - by intros [= -> ->]%list_elem_of_singleton.
  - intros Hin.
    assert (Hpu' : pu = [] \/ exists audio, pu = [Push audio]).
    { destruct Hpu as [[-> _] | (audio & -> & _)]; eauto. }
    destruct Hsp as [-> | ->], Hpu' as [-> | [audio ->]]; cbn [app] in *;
      apply elem_of_cons in Hin as [Hin | Hin];
      try (by injection Hin as -> ->);
      repeat (apply elem_of_cons in Hin as [Hin | Hin]; [discriminate Hin|]);
      by apply elem_of_nil in Hin.
Qed.

(** X15: a call that is cancelled at either [await] ends in an exception
    and pushes no audio. *)
Theorem cancelled_call_pushes_nothing self text c fs :
  c <> NotCancelled ->
  is_Some (raised (_run mktemp engine self text c fs))
  /\ filter is_push (effects (_run mktemp engine self text c fs)) = [].
Proof.
  intros Hc.
  assert (Hr : is_Some (raised (_run mktemp engine self text c fs))).
  { destruct (path_exists fs (piper_path self)) eqn:Hb;
      [|unfold _run; rewrite Hb; cbn; eauto].
    destruct (path_exists fs (model_path self)) eqn:Hm;
      [|unfold _run; rewrite Hb, Hm; cbn; eauto].
    destruct (mktemp fs) as [tmp|] eqn:Hmk;
      [|unfold _run, emit_audio_and_push; rewrite Hb, Hm, Hmk; cbn; eauto].
    destruct (run_effects_shape self text c fs tmp Hb Hm Hmk)
      as (_ & pushed & _ & [[_ H] | (audio & _ & _ & Hnc & _)]); [exact H | done]. }
  split; [exact Hr|].
  pose proof (one_chunk_iff_no_exception_aux self text c fs) as Hlen.
  destruct Hr as [e He]. rewrite He in Hlen. by apply length_zero_iff_nil in Hlen.
Qed.

Lemma generate_runs_engine self text out fs bin :
  fs !! piper_path self = Some bin ->
  executable bin = true ->
  _generate engine self text out fs
  = Result (engine (piper_command self text out) fs).1
           [Spawn (piper_command self text out)]
           (if (engine (piper_command self text out) fs).2 =? 0 then None
            else Some (CalledProcessError (engine (piper_command self text out) fs).2)).
Proof.
  intros Hb He. unfold _generate. fold (piper_command self text out).
  rewrite Hb, He. by destruct (engine _ fs).
Qed.

(** X16: when the engine exits with a non-zero code, the call raises
    [CalledProcessError] with that code, pushes nothing, does not try to
    read the output, and leaves the files as the engine left them but for
    the temporary file. *)
Theorem engine_failure_is_reported self text fs tmp bin fs' rc :
  fs !! piper_path self = Some bin ->
  executable bin = true ->
  path_exists fs (model_path self) = true ->
  mktemp fs = Some tmp ->
  tmp <> piper_path self ->
  engine (piper_command self text tmp) (<[tmp := empty_file]> fs) = (fs', rc) ->
  rc <> 0 ->
  _run mktemp engine self text NotCancelled fs
  = Result (delete tmp fs')
           [Initialize (_sample_rate self) 1; CreateTemp tmp;
            Spawn (piper_command self text tmp); Unlink tmp]
           (Some (CalledProcessError rc)).
Proof.
  intros Hb He Hm Hmk Hne Heng Hrc.
  assert (Hpb : path_exists fs (piper_path self) = true).
  { unfold path_exists. rewrite Hb. by apply bool_decide_eq_true. }
  unfold _run, emit_audio_and_push, try_block, finally_unlink.
  rewrite Hpb, Hm, Hmk. cbn [negb]. fold empty_file.
  rewrite (generate_runs_engine self text tmp _ bin)
    by (by rewrite ?lookup_insert_ne).
  rewrite Heng. cbn [fst snd raised fs_after effects].
  apply Z.eqb_neq in Hrc. rewrite Hrc. reflexivity.
Qed.

(** X17: when the engine exits with code 0, the call reads the temporary
    file as the engine left it: it pushes what [_read] returns and raises
    nothing, or raises what [_read] raises and pushes nothing. *)
Theorem engine_output_is_read_back self text fs tmp bin fs' :
  fs !! piper_path self = Some bin ->
  executable bin = true ->
  path_exists fs (model_path self) = true ->
  mktemp fs = Some tmp ->
  tmp <> piper_path self ->
  engine (piper_command self text tmp) (<[tmp := empty_file]> fs) = (fs', 0) ->
  _run mktemp engine self text NotCancelled fs
  = Result (delete tmp fs')
           (Initialize (_sample_rate self) 1 :: CreateTemp tmp
              :: Spawn (piper_command self text tmp)
              :: match _read fs' tmp with
                 | inr audio => [Push audio; Unlink tmp]
                 | inl _ => [Unlink tmp]
                 end)
           (match _read fs' tmp with
            | inr _ => None
            | inl e => Some e
            end).
Proof.
  intros Hb He Hm Hmk Hne Heng.
  assert (Hpb : path_exists fs (piper_path self) = true).
  { unfold path_exists. rewrite Hb. by apply bool_decide_eq_true. }
  unfold _run, emit_audio_and_push, try_block, finally_unlink.
  rewrite Hpb, Hm, Hmk. cbn [negb]. fold empty_file.
  rewrite (generate_runs_engine self text tmp _ bin)
    by (by rewrite ?lookup_insert_ne).
  rewrite Heng. cbn [fst snd raised fs_after effects Z.eqb].
  by destruct (_read fs' tmp).
Qed.

Lemma generate_other_file self text out fs p :
  (forall cmd fs0, (engine cmd fs0).1 !! p = fs0 !! p) ->
  fs_after (_generate engine self text out fs) !! p = fs !! p.
Proof.
  intros Hkeep. unfold _generate.
  destruct (fs !! piper_path self) as [bin|]; [|reflexivity].
  destruct (executable bin); [|reflexivity].
  specialize (Hkeep (piper_command self text out) fs).
  unfold piper_command in Hkeep. by destruct (engine _ fs).
Qed.

Lemma run_fs_after self text c fs :
  fs_after (_run mktemp engine self text c fs)
  = if path_exists fs (piper_path self) && path_exists fs (model_path self) then
      match mktemp fs with
      | Some tmp =>
          match c with
          | CancelledInGenerate =>
              fs_after (_generate engine self text tmp
                          (delete tmp (<[tmp := empty_file]> fs)))
          | _ =>
              delete tmp (fs_after (_generate engine self text tmp
                                      (<[tmp := empty_file]> fs)))
          end
      | None => fs
      end
    else fs.
Proof.
  unfold _run, emit_audio_and_push, try_block, finally_unlink, process_left_running.
  fold empty_file.
  destruct (path_exists fs (piper_path self)); [|reflexivity].
  destruct (path_exists fs (model_path self)); [|reflexivity].
  cbn [negb andb fs_after].
  destruct (mktemp fs) as [tmp|]; [|reflexivity].
  destruct c; try reflexivity;
    destruct (raised (_generate engine self text tmp (<[tmp:=empty_file]> fs)));
    try reflexivity;
    by destruct (_read _ _).
Qed.

(** X18: a file that is not the temporary file and that the engine leaves
    alone is the same after the call, on every exit path: the call itself
    writes and removes nothing else. *)
Theorem other_files_are_left_alone self text c fs p :
  mktemp fs <> Some p ->
  (forall cmd fs0, (engine cmd fs0).1 !! p = fs0 !! p) ->
  fs_after (_run mktemp engine self text c fs) !! p = fs !! p.
Proof.
  intros Hp Hkeep. rewrite run_fs_after.
  destruct (_ && _); [|reflexivity].
  destruct (mktemp fs) as [tmp|]; [|reflexivity].
  assert (tmp <> p) by congruence.
  destruct c.
  - rewrite lookup_delete_ne, generate_other_file by done. by rewrite lookup_insert_ne.
  - rewrite generate_other_file, lookup_delete_ne by done. by rewrite lookup_insert_ne.
  - rewrite lookup_delete_ne, generate_other_file by done. by rewrite lookup_insert_ne.
Qed.

(** X19: when the temporary name is fresh and the engine writes nothing
    but its output file, the filesystem after the call is the filesystem
    before it, on every exit path but one: success, failure of the engine
    or of the decoding, and cancellation while the output is read.  The
    cancellation while the engine runs is left out: there the engine writes
    its output file after the call has removed it. *)
Theorem filesystem_is_left_as_found self text c fs tmp :
  c <> CancelledInGenerate ->
  mktemp fs = Some tmp ->
  fs !! tmp = None ->
  (forall cmd fs0 q, q <> arg_output_file cmd -> (engine cmd fs0).1 !! q = fs0 !! q) ->
  fs_after (_run mktemp engine self text c fs) = fs.
Proof.
  intros Hc Hmk Hfresh Hkeep. rewrite run_fs_after, Hmk.
  destruct (_ && _); [|reflexivity].
  transitivity (delete tmp (fs_after (_generate engine self text tmp
                                        (<[tmp := empty_file]> fs))));
    [by destruct c|].
  apply map_eq. intros q. destruct (decide (tmp = q)) as [<-|Hne].
  - by rewrite lookup_delete_eq.
  - rewrite lookup_delete_ne by done.
    unfold _generate.
    destruct (<[tmp:=empty_file]> fs !! piper_path self) as [bin|];
      [|cbn [fs_after]; by rewrite lookup_insert_ne].
    destruct (executable bin); [|cbn [fs_after]; by rewrite lookup_insert_ne].
    match goal with |- context [engine ?cmd ?fs0] =>
      pose proof (Hkeep cmd fs0 q) as Hq; destruct (engine cmd fs0) as [fs1 rc] end.
    cbn [fst fs_after arg_output_file] in *.
    rewrite Hq by congruence. by rewrite lookup_insert_ne.
Qed.

End RunExtra.

Lemma read_body_output_length_witness :
  read_body stereo_wave = inr (tobytes [150; 0])
  /\ length (tobytes [150; 0]) = 4%nat
  /\ length (frame_bytes stereo_wave) = 8%nat.
Proof.
  assert (H : read_body stereo_wave = inr (tobytes [150; 0])) by reflexivity.
  split; [exact H|]. split; [|reflexivity].
  exact (read_body_output_length stereo_wave _ H).
Defined.

Lemma dual_mono_is_kept_witness :
  <["/tmp/out.wav" := {| executable := false; body := Wave dual_mono_wave |}]> fs_ready
    !! "/tmp/out.wav" = Some {| executable := false; body := Wave dual_mono_wave |}
  /\ Forall is_int16 [7; -9]
  /\ _read (<["/tmp/out.wav" := {| executable := false; body := Wave dual_mono_wave |}]>
              fs_ready) "/tmp/out.wav"
     = inr (tobytes [7; -9]).
Proof.
  assert (Hf : <["/tmp/out.wav" := {| executable := false; body := Wave dual_mono_wave |}]>
                 fs_ready !! "/tmp/out.wav"
               = Some {| executable := false; body := Wave dual_mono_wave |})
    by apply lookup_insert_eq.
  assert (Hr : Forall is_int16 [7; -9]) by (repeat constructor; cbn; lia).
  split; [exact Hf|]. split; [exact Hr|].
  exact (dual_mono_is_kept _ _ _ dual_mono_wave [7; -9] Hf eq_refl eq_refl eq_refl eq_refl Hr).
Defined.

Lemma engine_is_told_the_temporary_file_witness :
  Spawn (piper_command plugin0 "hi" "/tmp/tmp0.wav")
    ∈ effects (_run mktemp0 (engine_writes stereo_wave) plugin0 "hi" NotCancelled fs_ready)
  /\ CreateTemp "/tmp/tmp0.wav"
       ∈ effects (_run mktemp0 (engine_writes stereo_wave) plugin0 "hi" NotCancelled fs_ready)
  /\ length (filter is_spawn
               (effects (_run mktemp0 (engine_writes stereo_wave) plugin0 "hi"
                           NotCancelled fs_ready))) = 1%nat.
Proof.
  assert (H : Spawn (piper_command plugin0 "hi" "/tmp/tmp0.wav")
                ∈ effects (_run mktemp0 (engine_writes stereo_wave) plugin0 "hi"
                             NotCancelled fs_ready)).
  { vm_compute. do 2 apply list_elem_of_further. apply list_elem_of_here. }
  destruct (engine_is_told_the_temporary_file mktemp0 (engine_writes stereo_wave)
              plugin0 "hi" NotCancelled fs_ready _ H) as (_ & Hc & Hn).
  split; [exact H|]. split; [exact Hc | exact Hn].
Defined.

Lemma cleanup_is_the_last_effect_witness :
  CreateTemp "/tmp/tmp0.wav"
    ∈ effects (_run mktemp0 (engine_exits 1) plugin0 "hi" NotCancelled fs_ready)
  /\ last (effects (_run mktemp0 (engine_exits 1) plugin0 "hi" NotCancelled fs_ready))
     = Some (Unlink "/tmp/tmp0.wav").
Proof.
  assert (H : CreateTemp "/tmp/tmp0.wav"
                ∈ effects (_run mktemp0 (engine_exits 1) plugin0 "hi" NotCancelled fs_ready)).
  { vm_compute. apply list_elem_of_further. apply list_elem_of_here. }
  split; [exact H|].
  exact (cleanup_is_the_last_effect mktemp0 (engine_exits 1) plugin0 "hi" NotCancelled
           fs_ready _ H).
Defined.

Lemma announced_as_mono_at_the_configured_rate_witness :
  Initialize 22050 1
    ∈ effects (_run mktemp0 (engine_writes stereo_wave) plugin0 "hi" NotCancelled fs_ready)
  /\ getnchannels stereo_wave = 2%nat
  /\ head (effects (_run mktemp0 (engine_writes stereo_wave) plugin0 "hi" NotCancelled
                      fs_ready))
     = Some (Initialize 22050 1).
Proof.
  assert (H : Initialize 22050 1
                ∈ effects (_run mktemp0 (engine_writes stereo_wave) plugin0 "hi"
                             NotCancelled fs_ready)).
  { vm_compute. apply list_elem_of_here. }
  destruct (announced_as_mono_at_the_configured_rate mktemp0 (engine_writes stereo_wave)
              plugin0 "hi" NotCancelled fs_ready _ _ H) as (_ & _ & Hh).
  split; [exact H|]. split; [reflexivity | exact Hh].
Defined.

Lemma cancelled_call_pushes_nothing_witness :
  CancelledInRead <> NotCancelled
  /\ is_Some (raised (_run mktemp0 (engine_writes stereo_wave) plugin0 "hi"
                        CancelledInRead fs_ready))
  /\ filter is_push (effects (_run mktemp0 (engine_writes stereo_wave) plugin0 "hi"
                                CancelledInRead fs_ready)) = [].
Proof.
  assert (H : CancelledInRead <> NotCancelled) by discriminate.
  split; [exact H|].
  exact (cancelled_call_pushes_nothing mktemp0 (engine_writes stereo_wave) plugin0 "hi"
           CancelledInRead fs_ready H).
Defined.

Lemma engine_failure_is_reported_witness :
  fs_ready !! piper_path plugin0 = Some program_file
  /\ path_exists fs_ready (model_path plugin0) = true
  /\ "/tmp/tmp0.wav" <> piper_path plugin0
  /\ 3 <> 0
  /\ _run mktemp0 (engine_exits 3) plugin0 "hi" NotCancelled fs_ready
     = Result (delete "/tmp/tmp0.wav" fs_with_temp)
              [Initialize 22050 1; CreateTemp "/tmp/tmp0.wav";
               Spawn (piper_command plugin0 "hi" "/tmp/tmp0.wav"); Unlink "/tmp/tmp0.wav"]
              (Some (CalledProcessError 3)).
Proof.
  assert (H1 : fs_ready !! piper_path plugin0 = Some program_file) by reflexivity.
  assert (H2 : path_exists fs_ready (model_path plugin0) = true) by reflexivity.
  assert (H3 : "/tmp/tmp0.wav" <> piper_path plugin0) by discriminate.
  assert (H4 : 3 <> 0) by discriminate.
  split; [exact H1|]. split; [exact H2|]. split; [exact H3|]. split; [exact H4|].
  exact (engine_failure_is_reported mktemp0 (engine_exits 3) plugin0 "hi" fs_ready
           "/tmp/tmp0.wav" program_file fs_with_temp 3 H1 eq_refl H2 eq_refl H3 eq_refl H4).
Defined.

Lemma engine_output_is_read_back_witness :
  fs_ready !! piper_path plugin0 = Some program_file
  /\ path_exists fs_ready (model_path plugin0) = true
  /\ "/tmp/tmp0.wav" <> piper_path plugin0
  /\ raised (_run mktemp0 (engine_exits 0) plugin0 "hi" NotCancelled fs_ready)
     = Some WaveError
  /\ effects (_run mktemp0 (engine_exits 0) plugin0 "hi" NotCancelled fs_ready)
     = [Initialize 22050 1; CreateTemp "/tmp/tmp0.wav";
        Spawn (piper_command plugin0 "hi" "/tmp/tmp0.wav"); Unlink "/tmp/tmp0.wav"].
Proof.
  assert (H1 : fs_ready !! piper_path plugin0 = Some program_file) by reflexivity.
  assert (H2 : path_exists fs_ready (model_path plugin0) = true) by reflexivity.
  assert (H3 : "/tmp/tmp0.wav" <> piper_path plugin0) by discriminate.
  pose proof (engine_output_is_read_back mktemp0 (engine_exits 0) plugin0 "hi" fs_ready
                "/tmp/tmp0.wav" program_file fs_with_temp H1 eq_refl H2 eq_refl H3 eq_refl)
    as Hrun.
  split; [exact H1|]. split; [exact H2|]. split; [exact H3|].
  rewrite Hrun. split; reflexivity.
Defined.

Lemma other_files_are_left_alone_witness :
  mktemp0 fs_ready <> Some "/opt/voice.onnx"
  /\ (forall cmd fs0, (engine_exits 1 cmd fs0).1 !! "/opt/voice.onnx" = fs0 !! "/opt/voice.onnx")
  /\ fs_after (_run mktemp0 (engine_exits 1) plugin0 "hi" NotCancelled fs_ready)
       !! "/opt/voice.onnx" = fs_ready !! "/opt/voice.onnx".
Proof.
  assert (H1 : mktemp0 fs_ready <> Some "/opt/voice.onnx") by discriminate.
  assert (H2 : forall cmd fs0,
             (engine_exits 1 cmd fs0).1 !! "/opt/voice.onnx" = fs0 !! "/opt/voice.onnx")
    by reflexivity.
  split; [exact H1|]. split; [exact H2|].
  exact (other_files_are_left_alone mktemp0 (engine_exits 1) plugin0 "hi" NotCancelled
           fs_ready _ H1 H2).
Defined.

Lemma filesystem_is_left_as_found_witness :
  CancelledInRead <> CancelledInGenerate
  /\ mktemp0 fs_ready = Some "/tmp/tmp0.wav"
  /\ fs_ready !! "/tmp/tmp0.wav" = None
  /\ (forall cmd fs0 q, q <> arg_output_file cmd ->
                        (engine_writes stereo_wave cmd fs0).1 !! q = fs0 !! q)
  /\ fs_after (_run mktemp0 (engine_writes stereo_wave) plugin0 "hi" CancelledInRead fs_ready)
     = fs_ready.
Proof.
  assert (H0 : CancelledInRead <> CancelledInGenerate) by discriminate.
  assert (H1 : mktemp0 fs_ready = Some "/tmp/tmp0.wav") by reflexivity.
  assert (H2 : fs_ready !! "/tmp/tmp0.wav" = None) by reflexivity.
  assert (H3 : forall cmd fs0 q, q <> arg_output_file cmd ->
                 (engine_writes stereo_wave cmd fs0).1 !! q = fs0 !! q).
  { intros cmd fs0 q Hq. unfold engine_writes. cbn [fst]. by rewrite lookup_insert_ne. }
  split; [exact H0|]. split; [exact H1|]. split; [exact H2|]. split; [exact H3|].
  exact (filesystem_is_left_as_found mktemp0 (engine_writes stereo_wave) plugin0 "hi"
           CancelledInRead fs_ready _ H0 H1 H2 H3).
Defined.
End PiperExtra.

Module EnvProps.
Import Env.

Section Loading.
Variable resolve : string -> string.
Variable joinpath : string -> string -> string.
Variable files : gmap string (gmap string string).

(** What the loop keeps true. *)
Record consistent (env0 : gmap string string) (st : loader) : Prop := {
  seen_loaded : forall p, p ∈ seen st <-> p ∈ loaded st;
  loaded_nodup : NoDup (loaded st);
  loaded_exist : forall p, p ∈ loaded st -> is_Some (files !! p);
  environ_is : environ st
               = foldl (fun env p => env ∪ default ∅ (files !! p)) env0 (loaded st)
}.

Lemma visit_consistent env0 st p :
  consistent env0 st -> consistent env0 (visit files st p).
Proof.
  intros [Hs Hn He Hv]. unfold visit.
  case_bool_decide as Hin; [by constructor|].
  case_bool_decide as Hf; [|by constructor]. cbn [orb negb].
  constructor; cbn [seen loaded environ].
  - intros q. rewrite elem_of_union, elem_of_singleton, elem_of_app, list_elem_of_singleton, Hs.
    tauto.
  - apply NoDup_app. split; [exact Hn|]. split; [|apply NoDup_singleton].
    intros q Hq ->%list_elem_of_singleton. apply Hin. by apply Hs.
  - intros q [Hq | ->%list_elem_of_singleton]%elem_of_app; [by apply He | exact Hf].
  - by rewrite foldl_snoc, <- Hv.
Qed.

Lemma foldl_visit_consistent env0 st ps :
  consistent env0 st -> consistent env0 (foldl (visit files) st ps).
Proof.
  revert st. induction ps as [|p ps IH]; intros st H; [exact H|].
  cbn [foldl]. apply IH. by apply visit_consistent.
Qed.

Lemma initial_consistent env0 :
  consistent env0 {| seen := ∅; environ := env0; loaded := [] |}.
Proof.
  constructor; cbn [seen loaded environ]; try done.
  - intros p. split; [by intros ?%not_elem_of_empty | by intros ?%elem_of_nil].
  - constructor.
  - by intros p ?%elem_of_nil.
Qed.





Lemma loaded_environ roots env0 :
  environ (_load_env_files resolve joinpath files roots env0)
  = foldl (fun env p => env ∪ default ∅ (files !! p)) env0
          (loaded (_load_env_files resolve joinpath files roots env0)).
Proof.
  unfold _load_env_files.
  by destruct (foldl_visit_consistent env0 _ (candidates resolve joinpath roots)
                 (initial_consistent env0)).
Qed.

Lemma foldl_union_kept (env : gmap string string) ps k v :
  env !! k = Some v ->
  foldl (fun env p => env ∪ default ∅ (files !! p)) env ps !! k = Some v.
Proof.
  revert env. induction ps as [|p ps IH]; intros env H; [exact H|].
  cbn [foldl]. apply IH. by apply lookup_union_Some_l.
Qed.

Lemma foldl_union_source (env : gmap string string) ps k v :
  foldl (fun env p => env ∪ default ∅ (files !! p)) env ps !! k = Some v ->
  env !! k = Some v
  \/ exists p vars, p ∈ ps /\ files !! p = Some vars /\ vars !! k = Some v.
Proof.
  revert env. induction ps as [|p ps IH]; intros env H; [by left|].
  cbn [foldl] in H. destruct (IH _ H) as [Hu | (q & vars & Hq & Hf & Hv)].
  - apply lookup_union_Some_raw in Hu as [Hu | [_ Hu]]; [by left|].
    right. destruct (files !! p) as [vars|] eqn:Hf;
      [|cbn [from_option id] in Hu; by rewrite lookup_empty in Hu].
    exists p, vars. split; [apply list_elem_of_here | done].
  - right. exists q, vars. split; [by apply list_elem_of_further | done].
Qed.

Lemma environment_is_never_overridden_aux roots env0 k v :
  env0 !! k = Some v ->
  environ (_load_env_files resolve joinpath files roots env0) !! k = Some v.
Proof. intros H. rewrite loaded_environ. by apply foldl_union_kept. Qed.

(** X21: a variable that is set in the process environment keeps its value
    whatever the env files say. *)
Theorem environment_is_never_overridden roots env0 k v :
  env0 !! k = Some v ->
  environ (_load_env_files resolve joinpath files roots env0) !! k = Some v.
Proof. intros H. rewrite loaded_environ. by apply foldl_union_kept. Qed.

(** X22: after loading, every variable has its value from the process
    environment or from one of the loaded files. *)
Theorem variables_come_from_loaded_files roots env0 k v :
  environ (_load_env_files resolve joinpath files roots env0) !! k = Some v ->
  env0 !! k = Some v
  \/ exists p vars,
       p ∈ loaded (_load_env_files resolve joinpath files roots env0)
       /\ files !! p = Some vars /\ vars !! k = Some v.
Proof. rewrite loaded_environ. apply foldl_union_source. Qed.

(** X23: a variable that the process environment does not set takes its
    value from the first loaded file that sets it. *)
Theorem first_loaded_file_wins roots env0 before p after vars k v :
  loaded (_load_env_files resolve joinpath files roots env0) = (before ++ p :: after)%list ->
  env0 !! k = None ->
  Forall (fun q => default ∅ (files !! q) !! k = None) before ->
  files !! p = Some vars ->
  vars !! k = Some v ->
  environ (_load_env_files resolve joinpath files roots env0) !! k = Some v.
Proof.
  intros Hl Hnone Hbefore Hf Hv. rewrite loaded_environ, Hl, foldl_app. cbn [foldl].
  apply foldl_union_kept.
  assert (Hb : foldl (fun env q => env ∪ default ∅ (files !! q)) env0 before !! k = None).
  { clear Hl. revert env0 Hnone. induction Hbefore as [|q qs Hq _ IH]; intros env0 Hnone;
      [exact Hnone|].
    cbn [foldl]. apply IH. apply lookup_union_None. by split. }
  rewrite lookup_union_r by exact Hb. by rewrite Hf.
Qed.

End Loading.

Lemma or_else_some s b : s <> "" -> or_else (Some s) b = s.
Proof. intros H. unfold or_else. apply String.eqb_neq in H. by rewrite H. Qed.

(** X24: a non-empty [PIPER_PATH] of the process environment is the binary
    the assistant uses, whatever the env files, [PATH] and the fallback
    are. *)
Theorem process_piper_path_is_used resolve joinpath files roots env0 which fallback s :
  env0 !! "PIPER_PATH" = Some s ->
  s <> "" ->
  piper_bin (environ (_load_env_files resolve joinpath files roots env0)) which fallback = s.
Proof.
  intros H Hs. unfold piper_bin.
  rewrite (environment_is_never_overridden_aux resolve joinpath files roots env0 _ _ H).
  by apply or_else_some.
Qed.

(** X25: an empty [PIPER_PATH] in the process environment is kept by the
    loading and then counts as unset: the binary comes from [PATH] or the
    fallback, also when an env file sets [PIPER_PATH]. *)
Theorem empty_piper_path_hides_env_files resolve joinpath files roots env0 which fallback :
  env0 !! "PIPER_PATH" = Some "" ->
  piper_bin (environ (_load_env_files resolve joinpath files roots env0)) which fallback
  = or_else which fallback.
Proof.
  intros H. unfold piper_bin.
  by rewrite (environment_is_never_overridden_aux resolve joinpath files roots env0 _ _ H).
Qed.

Lemma environment_is_never_overridden_witness :
  <["PIPER_PATH" := "/usr/bin/piper"]> environ0 !! "PIPER_PATH" = Some "/usr/bin/piper"
  /\ environ (_load_env_files resolve0 joinpath0 files0 roots0
                (<["PIPER_PATH" := "/usr/bin/piper"]> environ0)) !! "PIPER_PATH"
     = Some "/usr/bin/piper".
Proof.
  assert (H : <["PIPER_PATH" := "/usr/bin/piper"]> environ0 !! "PIPER_PATH"
              = Some "/usr/bin/piper") by reflexivity.
  split; [exact H|].
  exact (environment_is_never_overridden resolve0 joinpath0 files0 roots0 _ _ _ H).
Defined.

Lemma variables_come_from_loaded_files_witness :
  environ (_load_env_files resolve0 joinpath0 files0 roots0 environ0) !! "PIPER_MODEL_PATH"
    = Some "/repo/voice.onnx"
  /\ (environ0 !! "PIPER_MODEL_PATH" = Some "/repo/voice.onnx"
      \/ exists p vars,
           p ∈ loaded (_load_env_files resolve0 joinpath0 files0 roots0 environ0)
           /\ files0 !! p = Some vars /\ vars !! "PIPER_MODEL_PATH" = Some "/repo/voice.onnx").
Proof.
  assert (H : environ (_load_env_files resolve0 joinpath0 files0 roots0 environ0)
                !! "PIPER_MODEL_PATH" = Some "/repo/voice.onnx")
    by (vm_compute; reflexivity).
  split; [exact H|].
  exact (variables_come_from_loaded_files resolve0 joinpath0 files0 roots0 environ0 _ _ H).
Defined.

Lemma first_loaded_file_wins_witness :
  loaded (_load_env_files resolve0 joinpath0 files0 roots0 environ0)
    = ([] ++ "/repo/src/.env.local" :: ["/repo/.env"])%list
  /\ environ0 !! "PIPER_PATH" = None
  /\ files0 !! "/repo/src/.env.local" = Some (<["PIPER_PATH" := "/src/piper"]> ∅)
  /\ environ (_load_env_files resolve0 joinpath0 files0 roots0 environ0) !! "PIPER_PATH"
     = Some "/src/piper".
Proof.
  assert (H1 : loaded (_load_env_files resolve0 joinpath0 files0 roots0 environ0)
               = ([] ++ "/repo/src/.env.local" :: ["/repo/.env"])%list)
    by (vm_compute; reflexivity).
  assert (H2 : environ0 !! "PIPER_PATH" = None) by reflexivity.
  assert (H3 : files0 !! "/repo/src/.env.local" = Some (<["PIPER_PATH" := "/src/piper"]> ∅))
    by reflexivity.
  split; [exact H1|]. split; [exact H2|]. split; [exact H3|].
  exact (first_loaded_file_wins resolve0 joinpath0 files0 roots0 environ0 [] _ _ _ _ _
           H1 H2 (Forall_nil_2 _) H3 eq_refl).
Defined.

Lemma process_piper_path_is_used_witness :
  <["PIPER_PATH" := "/usr/bin/piper"]> environ0 !! "PIPER_PATH" = Some "/usr/bin/piper"
  /\ "/usr/bin/piper" <> ""
  /\ piper_bin (environ (_load_env_files resolve0 joinpath0 files0 roots0
                           (<["PIPER_PATH" := "/usr/bin/piper"]> environ0)))
               None "/repo/.venv/bin/piper"
     = "/usr/bin/piper".
Proof.
  assert (H1 : <["PIPER_PATH" := "/usr/bin/piper"]> environ0 !! "PIPER_PATH"
               = Some "/usr/bin/piper") by reflexivity.
  assert (H2 : "/usr/bin/piper" <> "") by discriminate.
  split; [exact H1|]. split; [exact H2|].
  exact (process_piper_path_is_used resolve0 joinpath0 files0 roots0 _ None
           "/repo/.venv/bin/piper" _ H1 H2).
Defined.

Lemma empty_piper_path_hides_env_files_witness :
  <["PIPER_PATH" := ""]> environ0 !! "PIPER_PATH" = Some ""
  /\ piper_bin (environ (_load_env_files resolve0 joinpath0 files0 roots0
                           (<["PIPER_PATH" := ""]> environ0)))
               None "/repo/.venv/bin/piper"
     = "/repo/.venv/bin/piper"
  /\ piper_bin (environ (_load_env_files resolve0 joinpath0 files0 roots0 environ0))
               None "/repo/.venv/bin/piper"
     = "/src/piper".
Proof.
  assert (H : <["PIPER_PATH" := ""]> environ0 !! "PIPER_PATH" = Some "") by reflexivity.
  split; [exact H|]. split; [|vm_compute; reflexivity].
  exact (empty_piper_path_hides_env_files resolve0 joinpath0 files0 roots0 _ None
           "/repo/.venv/bin/piper" H).
Defined.

(** The sample checkout: the working directory is visited twice and its
    file is loaded once, before the repository's. *)
Example sample_checkout_loads :
  candidates resolve0 joinpath0 roots0
  = ["/repo/src/.env"; "/repo/src/.env.local"; "/repo/src/.env"; "/repo/src/.env.local";
     "/repo/.env"; "/repo/.env.local"]
  /\ loaded (_load_env_files resolve0 joinpath0 files0 roots0 environ0)
     = ["/repo/src/.env.local"; "/repo/.env"].
Proof. vm_compute. split; reflexivity. Qed.
End EnvProps.
